(** * Verification of [video_first_last_frame.py]

    A shallow embedding of the ComfyUI node "Video: First & Last Frame"
    and of its two HTTP handlers, followed by the properties of the
    node's specification that are established on the embedding.

    Conventions of the embedding.
    - Python [str] is [string]; a character is a code point below 256.
    - A Python exception is a value of [exn]; every constructor stands for
      a subclass of [Exception].
    - Effectful code lives in the monad [M]: it yields the list of
      operating-system interactions it performed together with its
      outcome (a value, a raised exception, or exhaustion of the fuel that
      bounds the only unbounded loop of the module).
    - Everything the module obtains from its environment (the file system,
      [folder_paths], the decoding libraries, PIL, [uuid4]) is a field of
      the record [Host]. *)

From Stdlib Require Import String Ascii List ZArith QArith Qabs Lia Bool.
From Stdlib Require Import Permutation Sorted DecimalString.
Import ListNotations.

Local Open Scope list_scope.
Local Open Scope string_scope.

(** ** Python strings *)

Module PyStr.

(** [str.isspace] on code points below 256. *)
Definition isspace (c : ascii) : bool :=
  let n := nat_of_ascii c in
  ((9 <=? n) && (n <=? 13) || (28 <=? n) && (n <=? 32)
   || (n =? 133) || (n =? 160))%nat.

Fixpoint lstrip (s : string) : string :=
  match s with
  | EmptyString => EmptyString
  | String c r => if isspace c then lstrip r else s
  end.

Fixpoint rstrip (s : string) : string :=
  match s with
  | EmptyString => EmptyString
  | String c r =>
      match rstrip r with
      | EmptyString => if isspace c then EmptyString else String c EmptyString
      | r' => String c r'
      end
  end.

(** [s.strip()] *)
Definition strip (s : string) : string := rstrip (lstrip s).

(** [str.lower] on code points below 256: A-Z and the accented capitals
    of Latin-1 (0xC0-0xDE but 0xD7) move up by 32. *)
Definition lower_char (c : ascii) : ascii :=
  let n := nat_of_ascii c in
  if ((65 <=? n) && (n <=? 90)
      || (192 <=? n) && (n <=? 222) && negb (n =? 215))%nat
  then ascii_of_nat (n + 32) else c.

Fixpoint lower (s : string) : string :=
  match s with
  | EmptyString => EmptyString
  | String c r => String (lower_char c) (lower r)
  end.

(** [s.replace(a, b)] for one-character [a] and [b]. *)
Fixpoint replace (a b : ascii) (s : string) : string :=
  match s with
  | EmptyString => EmptyString
  | String c r => String (if Ascii.eqb c a then b else c) (replace a b r)
  end.

Fixpoint startswith (p s : string) : bool :=
  match p, s with
  | EmptyString, _ => true
  | String a p', String b s' => Ascii.eqb a b && startswith p' s'
  | String _ _, EmptyString => false
  end.

Fixpoint endswith (suf s : string) : bool :=
  String.eqb s suf
  || match s with
     | EmptyString => false
     | String _ r => endswith suf r
     end.

(** [s.split(sep, 1)]: the text before the first [sep] and, when there is
    one, the text after it (the second item of the list Python builds). *)
Fixpoint split1 (sep : ascii) (s : string) : string * option string :=
  match s with
  | EmptyString => (EmptyString, None)
  | String c r =>
      if Ascii.eqb c sep then (EmptyString, Some r)
      else let (a, b) := split1 sep r in (String c a, b)
  end.

Fixpoint contains (c : ascii) (s : string) : bool :=
  match s with
  | EmptyString => false
  | String d r => Ascii.eqb d c || contains c r
  end.

(** Truthiness of a string. *)
Definition truthy (s : string) : bool :=
  match s with EmptyString => false | _ => true end.

End PyStr.

(** ** [os.path] (POSIX flavour) *)

Module OsPath.

Definition sep : ascii := "/"%char.

(** [posixpath.join(a, b)] *)
Definition join (a b : string) : string :=
  if PyStr.startswith "/" b then b
  else if negb (PyStr.truthy a) || PyStr.endswith "/" a then a ++ b
  else a ++ "/" ++ b.

Fixpoint basename_from (cur s : string) : string :=
  match s with
  | EmptyString => cur
  | String c r =>
      if Ascii.eqb c sep then basename_from r r else basename_from cur r
  end.

(** [posixpath.basename(p)]: what follows the last slash. *)
Definition basename (p : string) : string := basename_from p p.

End OsPath.

(** ** Arrays and tensors *)

(** A numpy array of an integer dtype: its shape and its items in C order. *)
Record ndarray : Type := mk_ndarray {
  shape : list nat;
  items : list Z
}.

Definition ndim (a : ndarray) : nat := length (shape a).

(** A torch tensor of dtype float32; an item is the rational number the
    float denotes. *)
Record tensor : Type := mk_tensor {
  tshape : list nat;
  titems : list Q
}.

Definition tndim (t : tensor) : nat := length (tshape t).

(** [t.unsqueeze(0)] *)
Definition unsqueeze0 (t : tensor) : tensor :=
  mk_tensor (1%nat :: tshape t) (titems t).

(** ** Exceptions, events and the monad *)

Inductive exn : Type :=
| ValueError (msg : string)
| FileNotFoundError (msg : string)
| RuntimeError (msg : string)
| ImportError (msg : string)
| IndexError (msg : string)
| OSError (msg : string)
| OtherError (cls msg : string).

(** [str(e)] *)
Definition exn_str (e : exn) : string :=
  match e with
  | ValueError m | FileNotFoundError m | RuntimeError m | ImportError m
  | IndexError m | OSError m | OtherError _ m => m
  end.

Definition is_ImportError (e : exn) : bool :=
  match e with ImportError _ => true | _ => false end.

(** What a call into the host environment does: return or throw. *)
Inductive call (A : Type) : Type :=
| Returns (a : A)
| Throws (e : exn).
Arguments Returns {A} a.
Arguments Throws {A} e.

(** The interactions with the operating system that the module performs. *)
Inductive event : Type :=
| EvIsFile (p : string)
| EvIsDir (p : string)
| EvListDir (p : string)
| EvGetMtime (p : string)
| EvMakeDirs (p : string)
| EvWriteFile (p : string) (data : list Byte.byte)
| EvSavePng (p : string) (frame : ndarray)
| EvOpenVideo (p : string)
| EvReleaseVideo
| EvImread (p : string) (index : Z).

Inductive Res (A : Type) : Type :=
| Ok (a : A)
| Raise (e : exn)
| OutOfFuel.
Arguments Ok {A} a.
Arguments Raise {A} e.
Arguments OutOfFuel {A}.

Definition M (A : Type) : Type := list event * Res A.

Definition ret {A} (a : A) : M A := ([], Ok a).
Definition raise {A} (e : exn) : M A := ([], Raise e).
Definition emit (ev : event) : M unit := ([ev], Ok tt).

Definition bind {A B} (m : M A) (k : A -> M B) : M B :=
  match m with
  | (t, Ok a) => let (t', r) := k a in ((t ++ t')%list, r)
  | (t, Raise e) => (t, Raise e)
  | (t, OutOfFuel) => (t, OutOfFuel)
  end.

Notation "x <- m ;; k" := (bind m (fun x => k))
  (at level 61, m at next level, right associativity).
Notation "m ;;; k" := (bind m (fun _ => k))
  (at level 61, right associativity).

Definition lift {A} (c : call A) : M A :=
  match c with
  | Returns a => ret a
  | Throws e => raise e
  end.

(** [try: body / except <class>: handler], the class given by [catches]. *)
Definition try_except {A} (catches : exn -> bool) (body : M A)
    (handler : exn -> M A) : M A :=
  match body with
  | (t, Raise e) =>
      if catches e then let (t', r) := handler e in ((t ++ t')%list, r)
      else (t, Raise e)
  | other => other
  end.

(** [except Exception]: every exception of [exn]. *)
Definition any_Exception (_ : exn) : bool := true.

Definition trace {A} (m : M A) : list event := fst m.
Definition outcome {A} (m : M A) : Res A := snd m.

(** ** The host environment *)

(** ComfyUI's [folder_paths] module. *)
Record FolderPaths : Type := {
  get_input_directory : call string;
  get_output_directory : call string;
  get_temp_directory : call string
}.

(** OpenCV.  A capture object is a value of [cap]; reading a frame and
    seeking yield the capture's next state. *)
Record Cv2 : Type := {
  cap : Type;
  VideoCapture : string -> cap;
  isOpened : cap -> bool;
  cap_read : cap -> (bool * option ndarray) * cap;
  (** [cap.get(cv2.CAP_PROP_FRAME_COUNT)], a finite float *)
  cap_get_frame_count : cap -> Q;
  (** [cap.set(cv2.CAP_PROP_POS_FRAMES, n)] *)
  cap_set_pos_frames : Z -> cap -> cap;
  (** [cv2.cvtColor(frame, cv2.COLOR_BGR2RGB)] *)
  cvtColor_BGR2RGB : ndarray -> ndarray
}.

(** [imageio.v3]: [iio.imread(path, index=i)]. *)
Record ImageIO : Type := {
  imread : string -> Z -> call ndarray
}.

(** PIL: [Image.fromarray(a)] and [image.save(path)]. *)
Record PIL : Type := {
  fromarray : ndarray -> call ndarray;
  image_save : ndarray -> string -> call unit
}.

Record Host : Type := {
  (** [None]: [import folder_paths] raises [ImportError]. *)
  folder_paths : option FolderPaths;
  cv2 : option Cv2;
  imageio : option ImageIO;
  pil : option PIL;
  isfile : string -> bool;
  isdir : string -> bool;
  listdir : string -> call (list string);
  getmtime : string -> call Q;
  makedirs : string -> call unit;
  write_file : string -> list Byte.byte -> call unit;
  expanduser : string -> string;
  expandvars : string -> string;
  (** [uuid4().hex] of this invocation *)
  uuid4_hex : string
}.

Definition import_module {A} (name : string) (m : option A) : M A :=
  match m with
  | Some a => ret a
  | None => raise (ImportError ("No module named '" ++ name ++ "'"))
  end.

Definition os_path_isfile (h : Host) (p : string) : M bool :=
  emit (EvIsFile p) ;;; ret (isfile h p).

Definition os_path_isdir (h : Host) (p : string) : M bool :=
  emit (EvIsDir p) ;;; ret (isdir h p).

Definition os_listdir (h : Host) (p : string) : M (list string) :=
  emit (EvListDir p) ;;; lift (listdir h p).

Definition os_path_getmtime (h : Host) (p : string) : M Q :=
  emit (EvGetMtime p) ;;; lift (getmtime h p).

Definition os_makedirs (h : Host) (p : string) : M unit :=
  emit (EvMakeDirs p) ;;; lift (makedirs h p).

(** [with open(p, "wb") as f: f.write(data)] *)
Definition open_write (h : Host) (p : string) (data : list Byte.byte)
  : M unit :=
  emit (EvWriteFile p data) ;;; lift (write_file h p data).

(** ** float32 arithmetic

    The value of a float32 operation is the exact result rounded to the
    nearest number with 24 significant bits, ties to even.  Exponent
    overflow and subnormal numbers lie outside the range the module
    computes in and are not modelled. *)

Module Float32.

Definition round_half_even (q : Q) : Z :=
  let n := Qnum q in
  let d := Zpos (Qden q) in
  let f := (n / d)%Z in
  match (2 * (n mod d) ?= d)%Z with
  | Lt => f
  | Gt => (f + 1)%Z
  | Eq => if Z.even f then f else (f + 1)%Z
  end.

(** For positive [q], the integer [e] with [2^e <= q < 2^(e+1)]. *)
Definition exponent (q : Q) : Z :=
  let e := (Z.log2 (Qnum q) - Z.log2 (Zpos (Qden q)))%Z in
  if Qle_bool (Qpower 2 e) q then e else (e - 1)%Z.

Definition round (q : Q) : Q :=
  if Qeq_bool q 0 then 0
  else
    let a := Qabs q in
    let ulp := Qpower 2 (exponent a - 23) in
    let m := inject_Z (round_half_even (a / ulp)) in
    Qred (if Qle_bool 0 q then m * ulp else - (m * ulp)).

(** [torch.from_numpy(a).float()] on one item *)
Definition of_int (x : Z) : Q := round (inject_Z x).

(** [x / y] on float32 operands *)
Definition div (x y : Q) : Q := round (x / y).

End Float32.

(** ** [_to_comfy_image] *)

Definition show_nat (n : nat) : string :=
  NilEmpty.string_of_uint (Nat.to_uint n).

(** [repr] of a shape tuple *)
Definition show_shape (s : list nat) : string :=
  match s with
  | [] => "()"
  | [n] => "(" ++ show_nat n ++ ",)"
  | n :: r =>
      "(" ++ show_nat n
          ++ fold_right (fun k acc => ", " ++ show_nat k ++ acc) ")" r
  end.

Definition _to_comfy_image (frame_rgb : option ndarray) : M tensor :=
  match frame_rgb with
  | None => raise (ValueError "Got empty frame")
  | Some frame_rgb =>
      if negb (ndim frame_rgb =? 3)%nat
         || negb (nth 2 (shape frame_rgb) 0 =? 3)%nat
      then raise (ValueError ("Expected RGB HxWx3 frame, got shape="
                                ++ show_shape (shape frame_rgb)))
      else
        let image :=
          mk_tensor (shape frame_rgb)
            (map (fun x => Float32.div (Float32.of_int x) 255)
                 (items frame_rgb)) in
        ret (unsqueeze0 image)
  end.

(** ** [_read_first_last_frames] *)

(** [int(x)] on a finite float: truncation toward zero. *)
Definition int_of_float (x : Q) : Z := Z.quot (Qnum x) (Zpos (Qden x)).

(** [x or 0] on a float. *)
Definition float_or_zero (x : Q) : Q := if Qeq_bool x 0 then 0 else x.

(** The [while True] loop of the fallback: read until a read fails and
    keep the last frame read.  One unit of fuel pays for one iteration. *)
Fixpoint scan_to_end (cv : Cv2) (fuel : nat) (c : cap cv)
    (last_bgr : ndarray) : M ndarray :=
  match fuel with
  | O => ([], OutOfFuel)
  | S fuel' =>
      match cap_read cv c with
      | ((true, Some frame_bgr), c') => scan_to_end cv fuel' c' frame_bgr
      | _ => ret last_bgr
      end
  end.

(** The body of the [try] block, once [cv2] is imported. *)
Definition read_with_cv2 (cv : Cv2) (fuel : nat) (video_path : string)
  : M (ndarray * ndarray) :=
  emit (EvOpenVideo video_path) ;;;
  let cap0 := VideoCapture cv video_path in
  if negb (isOpened cv cap0)
  then raise (ValueError ("Failed to open video: " ++ video_path))
  else
    match cap_read cv cap0 with
    | ((true, Some first_bgr), cap1) =>
        let first_rgb := cvtColor_BGR2RGB cv first_bgr in
        let frame_count :=
          int_of_float (float_or_zero (cap_get_frame_count cv cap1)) in
        let '(last_rgb, cap2) :=
          if (1 <? frame_count)%Z then
            match cap_read cv (cap_set_pos_frames cv (frame_count - 1) cap1)
            with
            | ((true, Some last_bgr), c) =>
                (Some (cvtColor_BGR2RGB cv last_bgr), c)
            | (_, c) => (None, c)
            end
          else (None, cap1) in
        last_rgb <-
          match last_rgb with
          | Some l => ret l
          | None =>
              last_bgr <- scan_to_end cv fuel cap2 first_bgr ;;
              ret (cvtColor_BGR2RGB cv last_bgr)
          end ;;
        emit EvReleaseVideo ;;;
        ret (first_rgb, last_rgb)
    | _ =>
        emit EvReleaseVideo ;;;
        raise (ValueError "Failed to read the first frame")
    end.

(** [a[:, :, :3]] on the items of an array of [npix] pixels with [c]
    channels each. *)
Fixpoint first3_channels (npix c : nat) (l : list Z) : list Z :=
  match npix with
  | O => []
  | S k => (firstn 3 l ++ first3_channels k c (skipn c l))%list
  end.

(** [if a.ndim == 3 and a.shape[2] >= 3: a = a[:, :, :3]] *)
Definition ensure_rgb (a : ndarray) : ndarray :=
  match shape a with
  | [hh; ww; c] =>
      if (3 <=? c)%nat
      then mk_ndarray [hh; ww; 3%nat]
             (first3_channels (hh * ww) c (items a))
      else a
  | _ => a
  end.

Definition read_with_imageio (h : Host) (video_path : string)
  : M (ndarray * ndarray) :=
  try_except any_Exception
    (iio <- import_module "imageio" (imageio h) ;;
     emit (EvImread video_path 0) ;;;
     first <- lift (imread iio video_path 0) ;;
     emit (EvImread video_path (-1)) ;;;
     last <- lift (imread iio video_path (-1)) ;;
     ret (ensure_rgb first, ensure_rgb last))
    (fun e =>
       raise (RuntimeError
         ("Could not read video frames. Install opencv-python (recommended) or imageio[ffmpeg]. "
          ++ "Original error: " ++ exn_str e))).

(** [video_path] is [None] when the argument is not a [str]. *)
Definition _read_first_last_frames (h : Host) (fuel : nat)
    (video_path : option string) : M (ndarray * ndarray) :=
  match video_path with
  | None => raise (ValueError "video_path is required")
  | Some video_path =>
      if negb (PyStr.truthy (PyStr.strip video_path))
      then raise (ValueError "video_path is required")
      else
        let video_path :=
          expandvars h (expanduser h (PyStr.strip video_path)) in
        is_file <- os_path_isfile h video_path ;;
        if negb is_file
        then raise (FileNotFoundError ("Video file not found: " ++ video_path))
        else
          try_except is_ImportError
            (cv <- import_module "cv2" (cv2 h) ;;
             read_with_cv2 cv fuel video_path)
            (fun _ => read_with_imageio h video_path)
  end.

(** ** [_resolve_video_path] *)

(** [video.split("/", 1)[1]] *)
Definition after_first_slash (video : string) : M string :=
  match snd (PyStr.split1 "/" video) with
  | Some rest => ret rest
  | None => raise (IndexError "list index out of range")
  end.

(** One [if lowered.startswith(prefix)] arm of the first [try] block;
    [Some p] stands for [return p], [None] for falling out of the arm. *)
Definition prefixed_candidate (h : Host) (lowered video prefix : string)
    (get_directory : call string) : M (option string) :=
  if PyStr.startswith prefix lowered then
    directory <- lift get_directory ;;
    rest <- after_first_slash video ;;
    let candidate := OsPath.join directory rest in
    is_file <- os_path_isfile h candidate ;;
    if is_file then ret (Some candidate) else ret None
  else ret None.

(** The first [try] block. *)
Definition resolve_prefixed (h : Host) (lowered video : string)
  : M (option string) :=
  try_except any_Exception
    (fp <- import_module "folder_paths" (folder_paths h) ;;
     r <- prefixed_candidate h lowered video "input/"
            (get_input_directory fp) ;;
     match r with
     | Some p => ret (Some p)
     | None =>
         r <- prefixed_candidate h lowered video "output/"
                (get_output_directory fp) ;;
         match r with
         | Some p => ret (Some p)
         | None =>
             prefixed_candidate h lowered video "temp/"
               (get_temp_directory fp)
         end
     end)
    (fun _ => ret None).

(** The second [try] block. *)
Definition resolve_in_input (h : Host) (video : string) : M (option string) :=
  try_except any_Exception
    (fp <- import_module "folder_paths" (folder_paths h) ;;
     input_dir <- lift (get_input_directory fp) ;;
     let candidate := OsPath.join input_dir video in
     is_file <- os_path_isfile h candidate ;;
     if is_file then ret (Some candidate) else ret None)
    (fun _ => ret None).

(** [video] is [None] for Python's [None]. *)
Definition _resolve_video_path (h : Host) (video : option string) : M string :=
  let video :=
    PyStr.strip (match video with
                 | Some s => if PyStr.truthy s then s else ""
                 | None => ""
                 end) in
  if negb (PyStr.truthy video) then ret video
  else
    let lowered := PyStr.lower (PyStr.replace "\" "/" video) in
    r <- resolve_prefixed h lowered video ;;
    match r with
    | Some p => ret p
    | None =>
        r <- resolve_in_input h video ;;
        match r with
        | Some p => ret p
        | None => ret video
        end
    end.

(** ** [_extract_video_source] *)

(** What another node may hand over as [video_in].  A [dict] is the list
    of its items with string keys; [POther] is any object of another
    type. *)
#[warnings="-register-all"] Inductive payload : Type :=
| PNone
| PStr (s : string)
| PDict (d : list (string * payload))
| PList (l : list payload)
| PTuple (l : list payload)
| PTensor (t : tensor)
| POther.

(** [d.get(key)] *)
Fixpoint dict_get (key : string) (d : list (string * payload)) : payload :=
  match d with
  | [] => PNone
  | (k, v) :: r => if String.eqb k key then v else dict_get key r
  end.

Definition path_keys : list string :=
  ["path"; "fullpath"; "filename"; "file"; "video"; "name"].

(** The [for key in (...)] loop: the first key whose value is a string
    that is not blank. *)
Fixpoint lookup_path (keys : list string) (d : list (string * payload))
  : option string :=
  match keys with
  | [] => None
  | key :: keys' =>
      match dict_get key d with
      | PStr v =>
          if PyStr.truthy (PyStr.strip v) then Some v
          else lookup_path keys' d
      | _ => lookup_path keys' d
      end
  end.

Definition is_tensor (x : payload) : bool :=
  match x with PTensor _ => true | _ => false end.

Definition prod_dims (s : list nat) : nat := fold_right Nat.mul 1%nat s.

(** [t[0:1]] on a tensor with at least one dimension *)
Definition slice_first (t : tensor) : tensor :=
  match tshape t with
  | b :: inner =>
      mk_tensor (Nat.min 1 b :: inner) (firstn (prod_dims inner) (titems t))
  | [] => t
  end.

(** [t[-1:]] on a tensor with at least one dimension *)
Definition slice_last (t : tensor) : tensor :=
  match tshape t with
  | b :: inner =>
      mk_tensor (Nat.min 1 b :: inner)
        (skipn ((b - 1) * prod_dims inner) (titems t))
  | [] => t
  end.

(** [if x.ndim == 3: x = x.unsqueeze(0)] *)
Definition ensure_batched (t : tensor) : tensor :=
  if (tndim t =? 3)%nat then unsqueeze0 t else t.

Definition source : Type := option string * option tensor * option tensor.

Definition no_source : source := (None, None, None).

(** The part of the function below the [dict] arm. *)
Definition extract_from_sequence_or_tensor (video_in : payload) : source :=
  let sequence :=
    match video_in with
    | PList (x :: r) | PTuple (x :: r) => Some (x :: r)
    | _ => None
    end in
  let tail :=
    match video_in with
    | PTensor t =>
        if (tndim t =? 4)%nat && (1 <=? nth 0 (tshape t) 0)%nat
        then (None, Some (slice_first t), Some (slice_last t))
        else no_source
    | _ => no_source
    end in
  match sequence with
  | Some items =>
      match forallb is_tensor items, hd PNone items, last items PNone with
      | true, PTensor first, PTensor last =>
          (None, Some (ensure_batched first), Some (ensure_batched last))
      | _, _, _ =>
          match hd PNone items with
          | PStr head => (Some head, None, None)
          | PDict head =>
              match lookup_path path_keys head with
              | Some v => (Some v, None, None)
              | None => tail
              end
          | _ => tail
          end
      end
  | None => tail
  end.

Definition _extract_video_source (video_in : payload) : source :=
  match video_in with
  | PNone => no_source
  | PStr s => (Some s, None, None)
  | PDict d =>
      match lookup_path path_keys d with
      | Some v => (Some v, None, None)
      | None =>
          match dict_get "frames" d with
          | PNone => extract_from_sequence_or_tensor video_in
          | frames => extract_from_sequence_or_tensor frames
          end
      end
  | _ => extract_from_sequence_or_tensor video_in
  end.

(** ** [_save_temp_preview_png] *)

Record PreviewDescriptor : Type := {
  pd_filename : string;
  pd_subfolder : string;
  pd_type : string
}.

Definition _save_temp_preview_png (h : Host) (frame_rgb : ndarray)
  : M (option PreviewDescriptor) :=
  try_except any_Exception
    (fp <- import_module "folder_paths" (folder_paths h) ;;
     image_lib <- import_module "PIL" (pil h) ;;
     temp_dir <- lift (get_temp_directory fp) ;;
     os_makedirs h temp_dir ;;;
     let filename := "videoframe_preview_" ++ uuid4_hex h ++ ".png" in
     let path := OsPath.join temp_dir filename in
     image <- lift (fromarray image_lib frame_rgb) ;;
     emit (EvSavePng path frame_rgb) ;;;
     lift (image_save image_lib image path) ;;;
     ret (Some {| pd_filename := filename;
                  pd_subfolder := "";
                  pd_type := "temp" |}))
    (fun _ => ret None).

(** ** The node: [VideoFirstLastFrame.load] *)

(** What [load] returns: the tuple of the two frames, or the [dict]
    that carries the preview under ["ui"] and the tuple under
    ["result"]. *)
Inductive load_result : Type :=
| FramePair (first last : tensor)
| WithPreview (preview : PreviewDescriptor) (first last : tensor).

Definition result_frames (r : load_result) : tensor * tensor :=
  match r with
  | FramePair f l | WithPreview _ f l => (f, l)
  end.

Definition result_preview (r : load_result) : option PreviewDescriptor :=
  match r with
  | FramePair _ _ => None
  | WithPreview p _ _ => Some p
  end.

(** [path_from_in or video] *)
Definition path_or (path_from_in : option string) (video : string) : string :=
  match path_from_in with
  | Some s => if PyStr.truthy s then s else video
  | None => video
  end.

Definition load (h : Host) (fuel : nat) (video : string)
    (video_in : payload) : M load_result :=
  let '(path_from_in, first_tensor, last_tensor) :=
    _extract_video_source video_in in
  match first_tensor, last_tensor with
  | Some first, Some last => ret (FramePair first last)
  | _, _ =>
      video_path <- _resolve_video_path h (Some (path_or path_from_in video)) ;;
      frames <- _read_first_last_frames h fuel (Some video_path) ;;
      let '(first_rgb, last_rgb) := frames in
      preview <- _save_temp_preview_png h first_rgb ;;
      match preview with
      | Some p =>
          first <- _to_comfy_image (Some first_rgb) ;;
          last <- _to_comfy_image (Some last_rgb) ;;
          ret (WithPreview p first last)
      | None =>
          first <- _to_comfy_image (Some first_rgb) ;;
          last <- _to_comfy_image (Some last_rgb) ;;
          ret (FramePair first last)
      end
  end.

(** ** The HTTP handlers

    Both handlers exist only when [folder_paths], [server] and [aiohttp]
    were imported at load time, so they take [folder_paths] as given. *)

(** The JSON object of a response. *)
Inductive json_body : Type :=
| JError (error : string)
| JName (name : string)
| JFiles (files : list string) (error : option string).

(** [web.json_response(body, status=...)]; the status defaults to 200. *)
Record Response : Type := {
  status : Z;
  body : json_body
}.

Definition json_response (b : json_body) : Response :=
  {| status := 200; body := b |}.

(** An uploaded file part: its [filename] attribute and what
    [file.file.read()] does. *)
Record FileField : Type := {
  ff_filename : option string;
  ff_read : call (list Byte.byte)
}.

(** A value of the multipart form: a file part or a plain text field. *)
Inductive form_value : Type :=
| FormFile (f : FileField)
| FormText (s : string).

(** A request: what [await request.post()] does. *)
Record Request : Type := {
  post : call (list (string * form_value))
}.

(** [post.get(key)] *)
Fixpoint form_get (key : string) (form : list (string * form_value))
  : option form_value :=
  match form with
  | [] => None
  | (k, v) :: r => if String.eqb k key then Some v else form_get key r
  end.

(** [getattr(file, "filename", None) or ""] *)
Definition filename_of (file : form_value) : string :=
  match file with
  | FormFile f =>
      match ff_filename f with
      | Some s => s
      | None => ""
      end
  | FormText _ => ""
  end.

(** [file.file.read()]; a text field has no attribute [file]. *)
Definition read_upload (file : form_value) : M (list Byte.byte) :=
  match file with
  | FormFile f => lift (ff_read f)
  | FormText _ =>
      raise (OtherError "AttributeError"
               "'str' object has no attribute 'file'")
  end.

Definition videoframenode_upload (h : Host) (fp : FolderPaths)
    (request : Request) : M Response :=
  match post request with
  | Throws e =>
      ret {| status := 400;
             body := JError ("invalid form data: " ++ exn_str e) |}
  | Returns form =>
      match form_get "file" form with
      | None => ret {| status := 400; body := JError "missing file" |}
      | Some file =>
          let filename := filename_of file in
          if negb (PyStr.endswith ".mp4" (PyStr.lower filename))
          then ret {| status := 400; body := JError "only .mp4 supported" |}
          else
            input_dir <- lift (get_input_directory fp) ;;
            os_makedirs h input_dir ;;;
            let safe_name := OsPath.basename filename in
            let save_path := OsPath.join input_dir safe_name in
            data <- read_upload file ;;
            open_write h save_path data ;;;
            ret (json_response (JName safe_name))
      end
  end.

(** The inner [for name in os.listdir(directory)] loop; the entries it
    appends, in order. *)
Fixpoint scan_names (h : Host) (prefix directory : string)
    (names : list string) : M (list (Q * string)) :=
  match names with
  | [] => ret []
  | name :: names' =>
      if negb (PyStr.endswith ".mp4" (PyStr.lower name))
      then scan_names h prefix directory names'
      else
        let p := OsPath.join directory name in
        mtime <- try_except any_Exception (os_path_getmtime h p)
                   (fun _ => ret 0%Q) ;;
        more <- scan_names h prefix directory names' ;;
        ret ((mtime, prefix ++ "/" ++ name) :: more)
  end.

(** The outer [for prefix, directory in candidates] loop. *)
Fixpoint scan_candidates (h : Host) (candidates : list (string * string))
  : M (list (Q * string)) :=
  match candidates with
  | [] => ret []
  | (prefix, directory) :: candidates' =>
      is_dir <- os_path_isdir h directory ;;
      if negb is_dir then scan_candidates h candidates'
      else
        names <- os_listdir h directory ;;
        entries <- scan_names h prefix directory names ;;
        more <- scan_candidates h candidates' ;;
        ret (entries ++ more)%list
  end.

(** [entries.sort(key=lambda x: x[0], reverse=True)]: a stable sort,
    largest key first; entries with equal keys keep their order. *)
Fixpoint insert_by_mtime (x : Q * string) (l : list (Q * string))
  : list (Q * string) :=
  match l with
  | [] => [x]
  | y :: r =>
      if Qle_bool (fst y) (fst x) then x :: y :: r
      else y :: insert_by_mtime x r
  end.

Definition sort_newest_first (l : list (Q * string)) : list (Q * string) :=
  fold_right insert_by_mtime [] l.

Definition videoframenode_recent (h : Host) (fp : FolderPaths)
  : M Response :=
  try_except any_Exception
    (input_dir <- lift (get_input_directory fp) ;;
     output_dir <- lift (get_output_directory fp) ;;
     let candidates := [("input", input_dir); ("output", output_dir)] in
     entries <- scan_candidates h candidates ;;
     let entries := sort_newest_first entries in
     let files := map snd (firstn 50 entries) in
     ret (json_response (JFiles files None)))
    (fun e => ret (json_response (JFiles [] (Some (exn_str e))))).

(** ** A concrete host

    A small installation on which the definitions above can be run: an
    input directory with two videos, OpenCV backed by in-memory frame
    lists, and a working PIL. *)

Module Sample.

(** A capture over a list of frames. *)
Record list_cap : Type := {
  lc_frames : list ndarray;
  lc_pos : nat;
  lc_open : bool
}.

Definition red_bgr : ndarray := mk_ndarray [1; 1; 3]%nat [0; 0; 255]%Z.
Definition green_bgr : ndarray := mk_ndarray [1; 1; 3]%nat [0; 255; 0]%Z.
Definition blue_bgr : ndarray := mk_ndarray [1; 1; 3]%nat [255; 0; 0]%Z.

Definition frames_of_file (p : string) : option (list ndarray) :=
  if String.eqb p "/comfy/input/one.mp4" then Some [red_bgr]
  else if String.eqb p "/comfy/input/clip.mp4"
       then Some [red_bgr; green_bgr; blue_bgr]
  else None.

(** Reverses the channels of every pixel. *)
Fixpoint swap_channels (l : list Z) : list Z :=
  match l with
  | b :: g :: r :: rest => r :: g :: b :: swap_channels rest
  | _ => l
  end.

Definition opencv : Cv2 := {|
  cap := list_cap;
  VideoCapture := fun p =>
    match frames_of_file p with
    | Some fs => {| lc_frames := fs; lc_pos := 0; lc_open := true |}
    | None => {| lc_frames := []; lc_pos := 0; lc_open := false |}
    end;
  isOpened := lc_open;
  cap_read := fun c =>
    match nth_error (lc_frames c) (lc_pos c) with
    | Some f =>
        ((true, Some f),
         {| lc_frames := lc_frames c; lc_pos := S (lc_pos c);
            lc_open := lc_open c |})
    | None => ((false, None), c)
    end;
  cap_get_frame_count := fun c => inject_Z (Z.of_nat (length (lc_frames c)));
  cap_set_pos_frames := fun n c =>
    {| lc_frames := lc_frames c; lc_pos := Z.to_nat n;
       lc_open := lc_open c |};
  cvtColor_BGR2RGB := fun a => mk_ndarray (shape a) (swap_channels (items a))
|}.

Definition comfy_paths : FolderPaths := {|
  get_input_directory := Returns "/comfy/input";
  get_output_directory := Returns "/comfy/output";
  get_temp_directory := Returns "/comfy/temp"
|}.

Definition pillow : PIL := {|
  fromarray := fun a => Returns a;
  image_save := fun _ _ => Returns tt
|}.

Definition host : Host := {|
  folder_paths := Some comfy_paths;
  cv2 := Some opencv;
  imageio := None;
  pil := Some pillow;
  isfile := fun p =>
    match frames_of_file p with Some _ => true | None => false end;
  isdir := fun p =>
    String.eqb p "/comfy/input" || String.eqb p "/comfy/temp";
  listdir := fun p =>
    if String.eqb p "/comfy/input" then Returns ["one.mp4"; "clip.mp4"]
    else Throws (OSError "No such file or directory");
  getmtime := fun p =>
    if String.eqb p "/comfy/input/one.mp4" then Returns 100%Q
    else if String.eqb p "/comfy/input/clip.mp4" then Returns 200%Q
    else Throws (OSError "No such file or directory");
  makedirs := fun _ => Returns tt;
  write_file := fun _ _ => Returns tt;
  expanduser := fun p => p;
  expandvars := fun p => p;
  uuid4_hex := "0123456789abcdef0123456789abcdef"
|}.

(** The same installation without PIL. *)
Definition host_without_pil : Host := {|
  folder_paths := folder_paths host;
  cv2 := cv2 host;
  imageio := imageio host;
  pil := None;
  isfile := isfile host;
  isdir := isdir host;
  listdir := listdir host;
  getmtime := getmtime host;
  makedirs := makedirs host;
  write_file := write_file host;
  expanduser := expanduser host;
  expandvars := expandvars host;
  uuid4_hex := uuid4_hex host
|}.

End Sample.

(** ** Vocabulary of the properties *)

(** A computation that yields either nothing or an existing file. *)
Definition finds_file_or_nothing (h : Host) (m : M (option string)) : Prop :=
  exists t r, m = (t, Ok r) /\ forall p, r = Some p -> isfile h p = true.

(** A computation that may also raise. *)
Definition finds_file_or_fails (h : Host) (m : M (option string)) : Prop :=
  (exists t e, m = (t, Raise e))
  \/ finds_file_or_nothing h m.

(** [video or ""] followed by [strip()]. *)
Definition stripped (video : option string) : string :=
  PyStr.strip (match video with Some s => s | None => "" end).

(** A bare file name: not empty and free of path separators. *)
Definition bare_filename (v : string) : Prop :=
  PyStr.truthy v = true
  /\ PyStr.contains "/" v = false
  /\ PyStr.contains "\" v = false.

(** The last rule: the name inside the input directory when a file is
    there, the name itself otherwise. *)
Definition input_or_literal (h : Host) (input_dir v : string) : string :=
  if isfile h (OsPath.join input_dir v) then OsPath.join input_dir v else v.

(** The path the decoder looks at: stripped, then expanded. *)
Definition expanded_path (h : Host) (video_path : string) : string :=
  expandvars h (expanduser h (PyStr.strip video_path)).

(** The next read of capture [c] yields no frame. *)
Definition read_fails (cv : Cv2) (c : cap cv) : Prop :=
  forall f : ndarray, fst (cap_read cv c) <> (true, Some f).

(** [frame_count] as the decoder computes it. *)
Definition reported_frame_count (cv : Cv2) (c : cap cv) : Z :=
  int_of_float (float_or_zero (cap_get_frame_count cv c)).

(** An item of an 8-bit array. *)
Definition is_byte (x : Z) : Prop := (0 <= x <= 255)%Z.

(** [y] is [x / 255] up to the rounding of float32 (a relative error of
    at most [2^-24]), and lies in the unit interval. *)
Definition scaled_byte (x : Z) (y : Q) : Prop :=
  Qabs (y - inject_Z x / 255) <= (inject_Z x / 255) * (1 # 16777216)
  /\ 0 <= y /\ y <= 1.

Definition scaled_byte_b (x : Z) (y : Q) : bool :=
  Qle_bool (Qabs (y - inject_Z x / 255))
           ((inject_Z x / 255) * (1 # 16777216))
  && Qle_bool 0 y && Qle_bool y 1.

(** What the converter computes for one item. *)
Definition to_unit_float (x : Z) : Q := Float32.div (Float32.of_int x) 255.

Definition byte_values : list Z := map Z.of_nat (seq 0 256).

(** Every step of the persistence goes through on host [h]. *)
Definition preview_steps_succeed (h : Host) (frame_rgb : ndarray) : Prop :=
  exists fp image_lib temp_dir image,
    folder_paths h = Some fp
    /\ pil h = Some image_lib
    /\ get_temp_directory fp = Returns temp_dir
    /\ makedirs h temp_dir = Returns tt
    /\ fromarray image_lib frame_rgb = Returns image
    /\ image_save image_lib image
         (OsPath.join temp_dir
            ("videoframe_preview_" ++ uuid4_hex h ++ ".png"))
       = Returns tt.

(** The accepted extension, compared without regard to case. *)
Definition is_mp4 (name : string) : bool :=
  PyStr.endswith ".mp4" (PyStr.lower name).

(** The time stamp of a file, 0 when it cannot be read. *)
Definition mtime_or_zero (h : Host) (p : string) : Q :=
  match getmtime h p with
  | Returns m => m
  | Throws _ => 0
  end.

Definition entry_of (h : Host) (prefix directory name : string)
  : Q * string :=
  (mtime_or_zero h (OsPath.join directory name), prefix ++ "/" ++ name).

(** The entries one directory contributes: none when it does not exist,
    one for each of its names with the accepted extension otherwise. *)
Definition directory_entries (h : Host) (prefix directory : string)
  : call (list (Q * string)) :=
  if isdir h directory then
    match listdir h directory with
    | Returns names =>
        Returns (map (entry_of h prefix directory) (filter is_mp4 names))
    | Throws e => Throws e
    end
  else Returns [].

Fixpoint all_entries (h : Host) (candidates : list (string * string))
  : call (list (Q * string)) :=
  match candidates with
  | [] => Returns []
  | (prefix, directory) :: candidates' =>
      match directory_entries h prefix directory with
      | Throws e => Throws e
      | Returns entries =>
          match all_entries h candidates' with
          | Throws e => Throws e
          | Returns more => Returns (entries ++ more)%list
          end
      end
  end.

(** The entries of the input and of the output directory, or the first
    failure met on the way. *)
Definition listing (h : Host) (fp : FolderPaths) : call (list (Q * string)) :=
  match get_input_directory fp with
  | Throws e => Throws e
  | Returns input_dir =>
      match get_output_directory fp with
      | Throws e => Throws e
      | Returns output_dir =>
          all_entries h [("input", input_dir); ("output", output_dir)]
      end
  end.

Definition as_outcome {A} (c : call A) : Res A :=
  match c with
  | Returns a => Ok a
  | Throws e => Raise e
  end.

(** [file] is [input/name] or [output/name] for a name with the accepted
    extension found right inside the input or the output directory. *)
Definition listed_name (h : Host) (fp : FolderPaths) (file : string) : Prop :=
  exists prefix directory names name,
    (prefix = "input" /\ get_input_directory fp = Returns directory
     \/ prefix = "output" /\ get_output_directory fp = Returns directory)
    /\ isdir h directory = true
    /\ listdir h directory = Returns names
    /\ In name names
    /\ is_mp4 name = true
    /\ file = prefix ++ "/" ++ name.

(** An entry is no older than the one that follows it. *)
Definition newer_first (a b : Q * string) : Prop := fst b <= fst a.

(** The request is one the handler turns down: the form cannot be
    parsed, it has no field [file], or the file's name lacks the
    extension. *)
Definition rejected (request : Request) : Prop :=
  match post request with
  | Throws _ => True
  | Returns form =>
      match form_get "file" form with
      | None => True
      | Some file => is_mp4 (filename_of file) = false
      end
  end.

(** The same with the extension compared letter for letter. *)
Definition rejected_literally (request : Request) : Prop :=
  match post request with
  | Throws _ => True
  | Returns form =>
      match form_get "file" form with
      | None => True
      | Some file => PyStr.endswith ".mp4" (filename_of file) = false
      end
  end.

(** The handler answers with a status from 400 to 499. *)
Definition client_error (m : M Response) : Prop :=
  exists t resp, m = (t, Ok resp) /\ (400 <= status resp < 500)%Z.

Definition sample_upload (name : string) : Request :=
  {| post := Returns
       [("file", FormFile {| ff_filename := Some name;
                             ff_read := Returns [Byte.x00; Byte.x01] |})] |}.

(** What the resolver may return: nothing, a path alone, or two frames
    alone. *)
Definition well_formed_source (s : source) : Prop :=
  s = no_source
  \/ (exists p, s = (Some p, None, None))
  \/ (exists first last, s = (None, Some first, Some last)).

(** A value the key loop passes over: anything but a string that is not
    blank. *)
Definition passed_over (x : payload) : Prop :=
  match x with
  | PStr s => PyStr.strip s = ""
  | _ => True
  end.

(** Reading from capture [c] yields the frames [fs] one after the other
    and leaves the capture in state [c']. *)
Fixpoint reads_frames (cv : Cv2) (c : cap cv) (fs : list ndarray)
    (c' : cap cv) : Prop :=
  match fs with
  | [] => c' = c
  | f :: fs' =>
      exists c1,
        cap_read cv c = ((true, Some f), c1) /\ reads_frames cv c1 fs' c'
  end.

(** The capture after the seek to the last reported index. *)
Definition seek_last (cv : Cv2) (c : cap cv) : cap cv :=
  cap_set_pos_frames cv (reported_frame_count cv c - 1) c.

(** ** Further hosts

    Variants of [Sample.host] for captures whose frame count cannot be
    trusted, and for an installation without OpenCV. *)

Module Variants.

(** [Sample.opencv] with the frame count replaced by [report] of the
    number of frames. *)
Definition opencv_reporting (report : nat -> Q) : Cv2 := {|
  cap := Sample.list_cap;
  VideoCapture := VideoCapture Sample.opencv;
  isOpened := isOpened Sample.opencv;
  cap_read := cap_read Sample.opencv;
  cap_get_frame_count := fun c => report (length (Sample.lc_frames c));
  cap_set_pos_frames := cap_set_pos_frames Sample.opencv;
  cvtColor_BGR2RGB := cvtColor_BGR2RGB Sample.opencv
|}.

(** A stream: no frame count. *)
Definition opencv_stream : Cv2 := opencv_reporting (fun _ => 0).

(** A container that claims five frames too many. *)
Definition opencv_overcount : Cv2 :=
  opencv_reporting (fun n => inject_Z (Z.of_nat n + 5)).

(** [Sample.host] with other decoding libraries. *)
Definition with_decoders (cv : option Cv2) (iio : option ImageIO) : Host := {|
  folder_paths := folder_paths Sample.host;
  cv2 := cv;
  imageio := iio;
  pil := pil Sample.host;
  isfile := isfile Sample.host;
  isdir := isdir Sample.host;
  listdir := listdir Sample.host;
  getmtime := getmtime Sample.host;
  makedirs := makedirs Sample.host;
  write_file := write_file Sample.host;
  expanduser := expanduser Sample.host;
  expandvars := expandvars Sample.host;
  uuid4_hex := uuid4_hex Sample.host
|}.

(** imageio that decodes RGBA frames: index 0 is opaque red, index -1
    half-transparent blue. *)
Definition imageio_rgba : ImageIO := {|
  imread := fun p index =>
    match Sample.frames_of_file p with
    | None => Throws (OSError "cannot open")
    | Some _ =>
        if (index =? 0)%Z
        then Returns (mk_ndarray [1; 1; 4]%nat [255; 0; 0; 255]%Z)
        else Returns (mk_ndarray [1; 1; 4]%nat [0; 0; 255; 128]%Z)
    end
|}.

End Variants.


Module Broken.

(** An OpenCV that opens nothing. *)
Definition opencv_closed : Cv2 := {|
  cap := unit;
  VideoCapture := fun _ => tt;
  isOpened := fun _ => false;
  cap_read := fun c => ((false, None), c);
  cap_get_frame_count := fun _ => 0;
  cap_set_pos_frames := fun _ c => c;
  cvtColor_BGR2RGB := fun a => a
|}.

(** An OpenCV that opens every file and decodes no frame. *)
Definition opencv_empty : Cv2 := {|
  cap := unit;
  VideoCapture := fun _ => tt;
  isOpened := fun _ => true;
  cap_read := fun c => ((false, None), c);
  cap_get_frame_count := fun _ => 0;
  cap_set_pos_frames := fun _ c => c;
  cvtColor_BGR2RGB := fun a => a
|}.

End Broken.

(** The name under which the preview of this invocation is stored. *)
Definition preview_filename (h : Host) : string :=
  "videoframe_preview_" ++ uuid4_hex h ++ ".png".

(** The descriptor handed to the UI. *)
Definition preview_descriptor (h : Host) : PreviewDescriptor :=
  {| pd_filename := preview_filename h;
     pd_subfolder := "";
     pd_type := "temp" |}.

(** The host's temporary directory, when it can be had. *)
Definition temp_directory (h : Host) : option string :=
  match folder_paths h with
  | Some fp =>
      match get_temp_directory fp with
      | Returns d => Some d
      | Throws _ => None
      end
  | None => None
  end.

(** An interaction that changes nothing on disk. *)
Definition read_only (ev : event) : Prop :=
  match ev with
  | EvMakeDirs _ | EvWriteFile _ _ | EvSavePng _ _ => False
  | _ => True
  end.

(** An interaction that changes nothing on disk, or belongs to the
    persistence of the preview in the temporary directory. *)
Definition read_or_preview (h : Host) (ev : event) : Prop :=
  match ev with
  | EvWriteFile _ _ => False
  | EvMakeDirs p => temp_directory h = Some p
  | EvSavePng p _ =>
      exists d, temp_directory h = Some d
                /\ p = OsPath.join d (preview_filename h)
  | _ => True
  end.

(** Every interaction of [m] satisfies [P]. *)
Definition emits_only {A} (P : event -> Prop) (m : M A) : Prop :=
  Forall P (trace m).

(** The entry carries the time stamp [q]. *)
Definition same_mtime (q : Q) (e : Q * string) : bool := Qeq_bool (fst e) q.

(** An interaction of a directory listing. *)
Definition listing_event (ev : event) : Prop :=
  match ev with
  | EvIsDir _ | EvListDir _ | EvGetMtime _ => True
  | _ => False
  end.


Module FailingDisk.

(** [Sample.host] on a disk that cannot be written. *)
Definition host : Host := {|
  folder_paths := folder_paths Sample.host;
  cv2 := cv2 Sample.host;
  imageio := imageio Sample.host;
  pil := pil Sample.host;
  isfile := isfile Sample.host;
  isdir := isdir Sample.host;
  listdir := listdir Sample.host;
  getmtime := getmtime Sample.host;
  makedirs := makedirs Sample.host;
  write_file := fun _ _ => Throws (OSError "Read-only file system");
  expanduser := expanduser Sample.host;
  expandvars := expandvars Sample.host;
  uuid4_hex := uuid4_hex Sample.host
|}.

End FailingDisk.

(** Reading a byte back from a float of the unit interval. *)
Definition to_byte (y : Q) : Z := Float32.round_half_even (y * 255).

(** The last rule of the path resolution with whatever the host offers:
    the name inside the input directory when a file is there, the name
    itself otherwise or when the directory cannot be had. *)
Definition last_rule (h : Host) (v : string) : string :=
  match folder_paths h with
  | Some fp =>
      match get_input_directory fp with
      | Returns d => input_or_literal h d v
      | Throws _ => v
      end
  | None => v
  end.

Module Gray.

(** imageio that decodes single-channel frames. *)
Definition imageio_gray : ImageIO := {|
  imread := fun _ _ => Returns (mk_ndarray [1; 2]%nat [7; 9]%Z)
|}.

(** [Sample.host] without OpenCV, decoding through [imageio_gray]. *)
Definition host : Host := Variants.with_decoders None (Some imageio_gray).

End Gray.

(** * Properties *)

(** ** Strings and paths *)

Lemma lower_char_slash (c : ascii) :
  Ascii.eqb (PyStr.lower_char (if Ascii.eqb c "\" then "/" else c)) "/"
  = (Ascii.eqb c "/" || Ascii.eqb c "\")%bool.
Proof.
  destruct c as [[] [] [] [] [] [] [] []]; reflexivity.
Qed.

Lemma contains_slash_lowered (v : string) :
  PyStr.contains "/" (PyStr.lower (PyStr.replace "\" "/" v))
  = (PyStr.contains "/" v || PyStr.contains "\" v)%bool.
Proof.
  induction v as [|c v IH]; simpl; [reflexivity|].
  rewrite lower_char_slash, IH.
  destruct (Ascii.eqb c "/"), (Ascii.eqb c "\"),
    (PyStr.contains "/" v), (PyStr.contains "\" v); reflexivity.
Qed.

Lemma startswith_app (p s : string) :
  PyStr.startswith p s = true -> exists r, s = p ++ r.
Proof.
  revert s; induction p as [|c p IH]; intros s H.
  - exists s; reflexivity.
  - destruct s as [|d s]; simpl in H; [discriminate|].
    apply andb_true_iff in H. destruct H as [Hc Hp].
    apply Ascii.eqb_eq in Hc. subst d.
    destruct (IH s Hp) as [r ->]. exists r; reflexivity.
Qed.

Lemma contains_app (c : ascii) (a b : string) :
  PyStr.contains c (a ++ b)
  = (PyStr.contains c a || PyStr.contains c b)%bool.
Proof.
  induction a as [|d a IH]; simpl; [reflexivity|].
  rewrite IH, orb_assoc; reflexivity.
Qed.

(** A name without separators carries none of the storage prefixes. *)
Lemma no_separator_no_prefix (v p : string) :
  PyStr.contains "/" v = false -> PyStr.contains "\" v = false ->
  PyStr.contains "/" p = true ->
  PyStr.startswith p (PyStr.lower (PyStr.replace "\" "/" v)) = false.
Proof.
  intros Hs Hb Hp.
  destruct (PyStr.startswith p _) eqn:E; [|reflexivity].
  apply startswith_app in E. destruct E as [r E].
  pose proof (contains_slash_lowered v) as H.
  rewrite E, contains_app, Hp, Hs, Hb in H. discriminate.
Qed.

(** ** The monad *)

Lemma bind_ok {A B} (t : list event) (a : A) (k : A -> M B) :
  bind (t, Ok a) k = ((t ++ fst (k a))%list, snd (k a)).
Proof. simpl. destruct (k a); reflexivity. Qed.

Lemma outcome_bind_ok {A B} (m : M A) (k : A -> M B) (a : A) :
  outcome m = Ok a -> outcome (bind m k) = outcome (k a).
Proof.
  destruct m as [t r]; simpl; intros ->. simpl. destruct (k a); reflexivity.
Qed.

(** ** [_resolve_video_path] *)

Lemma prefixed_candidate_file (h : Host) (lowered video prefix : string)
    (get_directory : call string) :
  finds_file_or_fails h
    (prefixed_candidate h lowered video prefix get_directory).
Proof.
  unfold prefixed_candidate, finds_file_or_fails, finds_file_or_nothing.
  destruct (PyStr.startswith prefix lowered).
  - destruct get_directory as [d|e]; simpl; [|left; eauto].
    unfold after_first_slash.
    destruct (snd (PyStr.split1 "/" video)) as [rest|]; simpl;
      [|left; eauto].
    destruct (isfile h (OsPath.join d rest)) eqn:E; simpl; right.
    + do 2 eexists; split; [reflexivity|]. intros p [= <-]. exact E.
    + do 2 eexists; split; [reflexivity|]. discriminate.
  - right. do 2 eexists; split; [reflexivity|]. discriminate.
Qed.

Lemma resolve_prefixed_file (h : Host) (lowered video : string) :
  finds_file_or_nothing h (resolve_prefixed h lowered video).
Proof.
  unfold resolve_prefixed.
  destruct (folder_paths h) as [fp|]; simpl.
  2:{ do 2 eexists; split; [reflexivity|]. discriminate. }
  assert (Hnone : forall t : list event,
    finds_file_or_nothing h (t, @Ok (option string) None)).
  { intros t. do 2 eexists; split; [reflexivity|]. discriminate. }
  destruct (prefixed_candidate_file h lowered video "input/"
              (get_input_directory fp)) as [[t [e ->]]|[t [r [-> Hr]]]];
    simpl; [apply Hnone|].
  destruct r as [p|]; simpl.
  { do 2 eexists; split; [reflexivity|]. intros q [= <-]. auto. }
  destruct (prefixed_candidate_file h lowered video "output/"
              (get_output_directory fp)) as [[t1 [e ->]]|[t1 [r [-> Hr1]]]];
    simpl; [apply Hnone|].
  destruct r as [p|]; simpl.
  { do 2 eexists; split; [reflexivity|]. intros q [= <-]. auto. }
  destruct (prefixed_candidate_file h lowered video "temp/"
              (get_temp_directory fp)) as [[t2 [e ->]]|[t2 [r [-> Hr2]]]];
    simpl; [apply Hnone|].
  do 2 eexists; split; [reflexivity|]. exact Hr2.
Qed.

Lemma resolve_in_input_file (h : Host) (video : string) :
  finds_file_or_nothing h (resolve_in_input h video).
Proof.
  unfold resolve_in_input, finds_file_or_nothing.
  destruct (folder_paths h) as [fp|]; simpl.
  2:{ do 2 eexists; split; [reflexivity|]. discriminate. }
  destruct (get_input_directory fp) as [d|e]; simpl.
  2:{ do 2 eexists; split; [reflexivity|]. discriminate. }
  destruct (isfile h (OsPath.join d video)) eqn:E; simpl.
  - do 2 eexists; split; [reflexivity|]. intros p [= <-]. exact E.
  - do 2 eexists; split; [reflexivity|]. discriminate.
Qed.

(** C10.  [_resolve_video_path] returns on every input, [None] included,
    whatever the host does: it never raises, and what it returns is the
    stripped argument or a path at which a regular file exists. *)
Theorem resolve_video_path_never_raises (h : Host) (video : option string) :
  exists t r,
    _resolve_video_path h video = (t, Ok r)
    /\ (r = stripped video \/ isfile h r = true).
Proof.
  unfold _resolve_video_path, stripped.
  assert (E : (match video with
               | Some s => if PyStr.truthy s then s else ""
               | None => ""
               end) = match video with Some s => s | None => "" end).
  { destruct video as [[|c s]|]; reflexivity. }
  rewrite E; clear E.
  set (v := PyStr.strip _).
  destruct (PyStr.truthy v); simpl.
  2:{ do 2 eexists; split; [reflexivity|]. left; reflexivity. }
  destruct (resolve_prefixed_file h
              (PyStr.lower (PyStr.replace "\" "/" v)) v) as [t [r [-> Hr]]].
  simpl. destruct r as [p|]; simpl.
  { do 2 eexists; split; [reflexivity|]. right; auto. }
  destruct (resolve_in_input_file h v) as [t1 [r [-> Hr1]]].
  simpl. destruct r as [p|]; simpl.
  - do 2 eexists; split; [reflexivity|]. right; auto.
  - do 2 eexists; split; [reflexivity|]. left; reflexivity.
Qed.

(** A prefix written with a backslash: [split("/", 1)[1]] fails inside
    the first [try], and the name goes on to the last rule. *)
Example resolve_backslash_prefix :
  _resolve_video_path Sample.host (Some "input\one.mp4")
  = ([EvIsFile "/comfy/input/input\one.mp4"], Ok "input\one.mp4").
Proof. reflexivity. Qed.

Example resolve_none_and_blank :
  _resolve_video_path Sample.host None = ([], Ok "")
  /\ _resolve_video_path Sample.host (Some "  ") = ([], Ok "").
Proof. split; reflexivity. Qed.

Lemma resolve_in_input_outcome (h : Host) (fp : FolderPaths)
    (d v : string) :
  folder_paths h = Some fp -> get_input_directory fp = Returns d ->
  outcome (r <- resolve_in_input h v ;;
           match r with
           | Some p => ret p
           | None => ret v
           end) = Ok (input_or_literal h d v).
Proof.
  intros Hfp Hd. unfold resolve_in_input, input_or_literal.
  rewrite Hfp; simpl. rewrite Hd; simpl.
  destruct (isfile h (OsPath.join d v)); reflexivity.
Qed.

(** C4.  With the host's input directory [d] at hand: a string that reads
    [input/rest] once stripped resolves to [d] joined with [rest] when a
    file exists there, and otherwise goes on to the last rule without an
    error; a bare file name resolves by the last rule, which gives the
    name joined to [d] when that file exists and the stripped string
    itself when it does not. *)
Theorem resolve_video_path_rules (h : Host) (fp : FolderPaths)
    (d video : string) :
  folder_paths h = Some fp ->
  get_input_directory fp = Returns d ->
  (forall rest, PyStr.strip video = "input/" ++ rest ->
     outcome (_resolve_video_path h (Some video))
     = Ok (if isfile h (OsPath.join d rest) then OsPath.join d rest
           else input_or_literal h d (PyStr.strip video)))
  /\ (bare_filename (PyStr.strip video) ->
      outcome (_resolve_video_path h (Some video))
      = Ok (input_or_literal h d (PyStr.strip video))).
Proof.
  intros Hfp Hd.
  assert (E : (if PyStr.truthy video then video else "") = video).
  { destruct video; reflexivity. }
  split.
  - intros rest Hv. unfold _resolve_video_path. rewrite E, Hv.
    assert (Ht : PyStr.truthy ("input/" ++ rest) = true) by reflexivity.
    assert (H1 : PyStr.startswith "input/"
              (PyStr.lower (PyStr.replace "\" "/" ("input/" ++ rest)))
            = true) by reflexivity.
    assert (H2 : PyStr.startswith "output/"
              (PyStr.lower (PyStr.replace "\" "/" ("input/" ++ rest)))
            = false) by reflexivity.
    assert (H3 : PyStr.startswith "temp/"
              (PyStr.lower (PyStr.replace "\" "/" ("input/" ++ rest)))
            = false) by reflexivity.
    assert (H4 : after_first_slash ("input/" ++ rest) = ret rest)
      by reflexivity.
    pose proof (resolve_in_input_outcome h fp d ("input/" ++ rest) Hfp Hd)
      as H.
    remember ("input/" ++ rest) as v eqn:Ev.
    rewrite Ht. simpl negb. cbv iota.
    unfold resolve_prefixed, prefixed_candidate.
    rewrite Hfp, H1, H2, H3. simpl. rewrite Hd. simpl. rewrite H4. simpl.
    destruct (isfile h (OsPath.join d rest)); simpl; [reflexivity|].
    destruct (bind (resolve_in_input h v) _) as [t r]. simpl in *.
    exact H.
  - intros (Ht & Hs & Hb). unfold _resolve_video_path. rewrite E.
    set (v := PyStr.strip video) in *. rewrite Ht. simpl.
    unfold resolve_prefixed. rewrite Hfp. simpl.
    unfold prefixed_candidate.
    rewrite !(no_separator_no_prefix v) by (assumption || reflexivity).
    simpl.
    pose proof (resolve_in_input_outcome h fp d v Hfp Hd) as H.
    destruct (bind (resolve_in_input h v) _) as [t r]. simpl in *.
    exact H.
Qed.

Lemma resolve_video_path_rules_witness :
  outcome (_resolve_video_path Sample.host (Some " input/clip.mp4 "))
  = Ok "/comfy/input/clip.mp4"
  /\ outcome (_resolve_video_path Sample.host (Some "input/gone.mp4"))
     = Ok "input/gone.mp4"
  /\ outcome (_resolve_video_path Sample.host (Some "one.mp4"))
     = Ok "/comfy/input/one.mp4"
  /\ outcome (_resolve_video_path Sample.host (Some "gone.mp4"))
     = Ok "gone.mp4".
Proof.
  pose proof (fun video =>
    resolve_video_path_rules Sample.host Sample.comfy_paths
      "/comfy/input" video eq_refl eq_refl) as R.
  split; [|split; [|split]].
  - exact (proj1 (R " input/clip.mp4 ") "clip.mp4" eq_refl).
  - exact (proj1 (R "input/gone.mp4") "gone.mp4" eq_refl).
  - apply (proj2 (R "one.mp4")). repeat split.
  - apply (proj2 (R "gone.mp4")). repeat split.
Defined.

(** ** [_read_first_last_frames] *)

(** C5.  A path that is blank (empty or white space only) is refused with
    [ValueError] before anything is looked at.  A path that is not blank
    and, once stripped and expanded, does not name a regular file is
    refused with [FileNotFoundError]; the only interaction up to then is
    the file test, so no decoding backend has been tried, whichever
    backends the host has and whatever the fuel. *)
Theorem read_frames_rejects_bad_path (h : Host) (fuel : nat)
    (video_path : string) :
  (PyStr.strip video_path = "" ->
   _read_first_last_frames h fuel (Some video_path)
   = ([], Raise (ValueError "video_path is required")))
  /\ (PyStr.strip video_path <> "" ->
      isfile h (expanded_path h video_path) = false ->
      _read_first_last_frames h fuel (Some video_path)
      = ([EvIsFile (expanded_path h video_path)],
         Raise (FileNotFoundError
                  ("Video file not found: " ++ expanded_path h video_path)))).
Proof.
  unfold _read_first_last_frames, expanded_path. split.
  - intros ->. reflexivity.
  - intros Hne Hfile.
    destruct (PyStr.strip video_path) as [|c s] eqn:E; [congruence|].
    simpl. rewrite Hfile. reflexivity.
Qed.

Lemma read_frames_rejects_bad_path_witness :
  _read_first_last_frames Sample.host 3 (Some "   ")
  = ([], Raise (ValueError "video_path is required"))
  /\ _read_first_last_frames Sample.host 3 (Some " /videos/gone.mp4 ")
     = ([EvIsFile "/videos/gone.mp4"],
        Raise (FileNotFoundError "Video file not found: /videos/gone.mp4")).
Proof.
  split.
  - apply (proj1 (read_frames_rejects_bad_path Sample.host 3 "   ")).
    reflexivity.
  - apply (proj2 (read_frames_rejects_bad_path Sample.host 3
                    " /videos/gone.mp4 ")).
    + discriminate.
    + reflexivity.
Defined.

Lemma scan_to_end_nothing (cv : Cv2) (fuel : nat) (c : cap cv)
    (first_bgr : ndarray) :
  (0 < fuel)%nat -> read_fails cv c ->
  scan_to_end cv fuel c first_bgr = ret first_bgr.
Proof.
  intros Hfuel Hfail. destruct fuel as [|k]; [lia|]. simpl.
  unfold read_fails in Hfail.
  destruct (cap_read cv c) as [[ok fr] c']. simpl in Hfail.
  destruct ok; [|reflexivity].
  destruct fr as [f|]; [|reflexivity].
  exfalso. apply (Hfail f). reflexivity.
Qed.

(** C1.  A file with one frame, decoded by OpenCV: the first read
    succeeds, the reported frame count is at most 1 and the next read
    yields nothing.  With fuel for one turn of the loop the decoder
    returns, and the first frame, converted to RGB, is both results. *)
Theorem single_frame_first_is_last (h : Host) (cv : Cv2) (fuel : nat)
    (video_path : string) (first_bgr : ndarray) (c1 : cap cv) :
  PyStr.strip video_path <> "" ->
  isfile h (expanded_path h video_path) = true ->
  cv2 h = Some cv ->
  isOpened cv (VideoCapture cv (expanded_path h video_path)) = true ->
  cap_read cv (VideoCapture cv (expanded_path h video_path))
  = ((true, Some first_bgr), c1) ->
  (reported_frame_count cv c1 <= 1)%Z ->
  read_fails cv c1 ->
  (0 < fuel)%nat ->
  outcome (_read_first_last_frames h fuel (Some video_path))
  = Ok (cvtColor_BGR2RGB cv first_bgr, cvtColor_BGR2RGB cv first_bgr).
Proof.
  intros Hne Hfile Hcv Hopen Hread Hcount Hfail Hfuel.
  unfold _read_first_last_frames. fold (expanded_path h video_path).
  destruct (PyStr.strip video_path) as [|c s] eqn:E; [congruence|].
  simpl PyStr.truthy. simpl negb. cbv iota.
  unfold os_path_isfile. rewrite Hfile, Hcv. simpl.
  unfold read_with_cv2. rewrite Hopen, Hread. simpl.
  fold (reported_frame_count cv c1).
  destruct (1 <? reported_frame_count cv c1)%Z eqn:Hlt;
    [apply Z.ltb_lt in Hlt; lia|].
  rewrite (scan_to_end_nothing cv fuel c1 first_bgr Hfuel Hfail).
  reflexivity.
Qed.

Lemma single_frame_first_is_last_witness :
  outcome (_read_first_last_frames Sample.host 1 (Some "/comfy/input/one.mp4"))
  = Ok (mk_ndarray [1; 1; 3]%nat [255; 0; 0]%Z,
        mk_ndarray [1; 1; 3]%nat [255; 0; 0]%Z).
Proof.
  apply (single_frame_first_is_last Sample.host Sample.opencv 1
           "/comfy/input/one.mp4" Sample.red_bgr
           {| Sample.lc_frames := [Sample.red_bgr]; Sample.lc_pos := 1;
              Sample.lc_open := true |}).
  - discriminate.
  - reflexivity.
  - reflexivity.
  - reflexivity.
  - reflexivity.
  - vm_compute. discriminate.
  - intros f. simpl. discriminate.
  - lia.
Defined.

(** ** [_to_comfy_image] *)

Lemma scaled_byte_b_sound (x : Z) (y : Q) :
  scaled_byte_b x y = true -> scaled_byte x y.
Proof.
  unfold scaled_byte_b, scaled_byte. intros H.
  apply andb_true_iff in H. destruct H as [H H3].
  apply andb_true_iff in H. destruct H as [H1 H2].
  repeat split; apply Qle_bool_iff; assumption.
Qed.

Lemma is_byte_in_values (x : Z) : is_byte x -> In x byte_values.
Proof.
  intros [H0 H1]. unfold byte_values.
  rewrite <- (Z2Nat.id x H0). apply in_map. apply in_seq. lia.
Qed.

Lemma all_bytes_scaled :
  forallb (fun x => scaled_byte_b x (to_unit_float x)) byte_values = true.
Proof. vm_compute. reflexivity. Qed.

Lemma to_unit_float_scaled (x : Z) :
  is_byte x -> scaled_byte x (to_unit_float x).
Proof.
  intros H. apply scaled_byte_b_sound.
  pose proof all_bytes_scaled as A.
  rewrite forallb_forall in A. apply A. apply is_byte_in_values. exact H.
Qed.

Lemma map_to_unit_float_scaled (data : list Z) :
  Forall is_byte data -> Forall2 scaled_byte data (map to_unit_float data).
Proof.
  induction 1 as [|x l Hx Hl IH]; simpl; constructor.
  - apply to_unit_float_scaled. exact Hx.
  - exact IH.
Qed.

(** C2.  The converter raises [ValueError] on [None] and on every array
    that has not exactly three dimensions with 3 as the last one.  On an
    8-bit array of shape H x W x 3 it returns a tensor of shape
    1 x H x W x 3 whose items are, position by position, the array's
    items divided by 255 up to float32 rounding. *)
Theorem to_comfy_image_contract :
  _to_comfy_image None = ([], Raise (ValueError "Got empty frame"))
  /\ (forall a : ndarray,
        ndim a <> 3%nat \/ nth 2 (shape a) 0%nat <> 3%nat ->
        exists msg,
          _to_comfy_image (Some a) = ([], Raise (ValueError msg)))
  /\ (forall (hh ww : nat) (data : list Z),
        Forall is_byte data ->
        exists t,
          _to_comfy_image (Some (mk_ndarray [hh; ww; 3%nat] data))
          = ([], Ok t)
          /\ tshape t = [1%nat; hh; ww; 3%nat]
          /\ Forall2 scaled_byte data (titems t)).
Proof.
  split; [reflexivity|]. split.
  - intros a H. unfold _to_comfy_image.
    destruct (ndim a =? 3)%nat eqn:E1; simpl.
    + destruct (nth 2 (shape a) 0 =? 3)%nat eqn:E2; simpl.
      * apply Nat.eqb_eq in E1, E2. destruct H; contradiction.
      * eexists; reflexivity.
    + eexists; reflexivity.
  - intros hh ww data Hdata. unfold _to_comfy_image. simpl.
    eexists. split; [reflexivity|]. split; [reflexivity|].
    simpl. apply (map_to_unit_float_scaled data Hdata).
Qed.

Lemma to_comfy_image_contract_witness :
  (exists msg,
     _to_comfy_image (Some (mk_ndarray [2; 2]%nat [1; 2; 3; 4]%Z))
     = ([], Raise (ValueError msg)))
  /\ (exists t,
        _to_comfy_image (Some (mk_ndarray [1; 1; 3]%nat [0; 128; 255]%Z))
        = ([], Ok t)
        /\ tshape t = [1; 1; 1; 3]%nat
        /\ Forall2 scaled_byte [0; 128; 255]%Z (titems t)).
Proof.
  destruct to_comfy_image_contract as (_ & Hbad & Hgood). split.
  - apply Hbad. left. simpl. discriminate.
  - apply (Hgood 1%nat 1%nat [0; 128; 255]%Z).
    repeat constructor; unfold is_byte; lia.
Defined.

(** ** [_extract_video_source] and [load] *)

Lemma forallb_is_tensor (ts : list tensor) :
  forallb is_tensor (map PTensor ts) = true.
Proof. induction ts as [|t ts IH]; simpl; auto. Qed.

Lemma last_map_tensor (ts : list tensor) (a d : tensor) (d' : payload) :
  last (map PTensor (a :: ts)) d' = PTensor (last (a :: ts) d).
Proof.
  revert a; induction ts as [|t ts IH]; intros a; [reflexivity|].
  change (last (map PTensor (a :: t :: ts)) d')
    with (last (map PTensor (t :: ts)) d').
  rewrite IH. reflexivity.
Qed.

Lemma extract_tensor_sequence (a : tensor) (rest : list tensor) :
  extract_from_sequence_or_tensor (PList (map PTensor (a :: rest)))
  = (None, Some (ensure_batched a),
     Some (ensure_batched (last (a :: rest) a)))
  /\ extract_from_sequence_or_tensor (PTuple (map PTensor (a :: rest)))
     = (None, Some (ensure_batched a),
        Some (ensure_batched (last (a :: rest) a))).
Proof.
  unfold extract_from_sequence_or_tensor.
  change (map PTensor (a :: rest)) with (PTensor a :: map PTensor rest).
  cbv iota beta.
  change (PTensor a :: map PTensor rest) with (map PTensor (a :: rest)).
  rewrite forallb_is_tensor, (last_map_tensor rest a a). split; reflexivity.
Qed.

(** C3.  For a list or a tuple of tensors [a; ...; c] the resolver gives
    no path and the pair made of [a] and [c], each with a batch dimension
    put in front when it has three dimensions and unchanged otherwise;
    [load] then returns that pair and performs no interaction with the
    operating system at all, on any host. *)
Theorem tensor_sequence_first_last (h : Host) (fuel : nat) (video : string)
    (a : tensor) (rest : list tensor) :
  let c := last (a :: rest) a in
  let batched (t : tensor) :=
    if (tndim t =? 3)%nat then mk_tensor (1%nat :: tshape t) (titems t)
    else t in
  _extract_video_source (PList (map PTensor (a :: rest)))
  = (None, Some (batched a), Some (batched c))
  /\ _extract_video_source (PTuple (map PTensor (a :: rest)))
     = (None, Some (batched a), Some (batched c))
  /\ load h fuel video (PList (map PTensor (a :: rest)))
     = ([], Ok (FramePair (batched a) (batched c)))
  /\ load h fuel video (PTuple (map PTensor (a :: rest)))
     = ([], Ok (FramePair (batched a) (batched c))).
Proof.
  intros c batched.
  destruct (extract_tensor_sequence a rest) as [HL HT].
  assert (EL : _extract_video_source (PList (map PTensor (a :: rest)))
               = (None, Some (batched a), Some (batched c))) by exact HL.
  assert (ET : _extract_video_source (PTuple (map PTensor (a :: rest)))
               = (None, Some (batched a), Some (batched c))) by exact HT.
  unfold load. rewrite EL, ET. repeat split.
Qed.

(** [load] on a string payload uses [path_or]. *)
Lemma load_string_payload (h : Host) (fuel : nat) (video s : string) :
  load h fuel video (PStr s) = load h fuel (path_or (Some s) video) PNone.
Proof. reflexivity. Qed.

(** C7, as the code has it.  A string payload that is not empty is taken
    as the video path and the primary argument is not looked at: [load]
    behaves as it does when that string is the primary argument and
    there is no payload.  An empty string payload leaves the primary
    argument in charge. *)
Theorem string_payload_overrides (h : Host) (fuel : nat)
    (video s : string) :
  (s <> "" -> load h fuel video (PStr s) = load h fuel s PNone)
  /\ load h fuel video (PStr "") = load h fuel video PNone.
Proof.
  split; [|reflexivity].
  intros Hs. rewrite load_string_payload.
  destruct s as [|c s]; [congruence|]. reflexivity.
Qed.

Lemma string_payload_overrides_witness :
  load Sample.host 1 "clip.mp4" (PStr "one.mp4")
  = load Sample.host 1 "one.mp4" PNone.
Proof.
  apply (proj1 (string_payload_overrides Sample.host 1 "clip.mp4" "one.mp4")).
  discriminate.
Defined.

(** C7 as stated fails on the empty string: with the payload [""] and the
    primary argument ["one.mp4"] the node decodes [one.mp4], whereas with
    [""] as the path it raises [ValueError]. *)
Lemma string_payload_empty_counterexample :
  outcome (load Sample.host 1 "one.mp4" (PStr ""))
  = outcome (load Sample.host 1 "one.mp4" PNone)
  /\ outcome (load Sample.host 1 "" PNone)
     = Raise (ValueError "video_path is required")
  /\ load Sample.host 1 "one.mp4" (PStr "") <> load Sample.host 1 "" PNone.
Proof.
  split; [reflexivity|]. split; [reflexivity|].
  vm_compute. discriminate.
Qed.

(** ** [_save_temp_preview_png] *)

Lemma save_preview_never_raises (h : Host) (frame_rgb : ndarray) :
  exists t r, _save_temp_preview_png h frame_rgb = (t, Ok r).
Proof.
  unfold _save_temp_preview_png, os_makedirs.
  destruct (folder_paths h) as [fp|]; simpl; [|do 2 eexists; reflexivity].
  destruct (pil h) as [pl|]; simpl; [|do 2 eexists; reflexivity].
  destruct (get_temp_directory fp) as [d|e]; simpl; [|do 2 eexists; reflexivity].
  destruct (makedirs h d) as [[]|e]; simpl; [|do 2 eexists; reflexivity].
  destruct (fromarray pl frame_rgb) as [img|e]; simpl; [|do 2 eexists; reflexivity].
  destruct (image_save pl img _) as [[]|e]; simpl; do 2 eexists; reflexivity.
Qed.

Lemma save_preview_failure_is_none (h : Host) (frame_rgb : ndarray) :
  ~ preview_steps_succeed h frame_rgb ->
  outcome (_save_temp_preview_png h frame_rgb) = Ok None.
Proof.
  intros Hfail. unfold _save_temp_preview_png, os_makedirs.
  destruct (folder_paths h) as [fp|] eqn:E1; simpl; [|reflexivity].
  destruct (pil h) as [pl|] eqn:E2; simpl; [|reflexivity].
  destruct (get_temp_directory fp) as [d|e] eqn:E3; simpl; [|reflexivity].
  destruct (makedirs h d) as [[]|e] eqn:E4; simpl; [|reflexivity].
  destruct (fromarray pl frame_rgb) as [img|e] eqn:E5; simpl; [|reflexivity].
  destruct (image_save pl img _) as [[]|e] eqn:E6; simpl; [|reflexivity].
  exfalso. apply Hfail. exists fp, pl, d, img. auto 10.
Qed.

(** What [load] does once the frames are decoded. *)
Lemma load_after_decoding (h : Host) (fuel : nat) (video : string)
    (video_in : payload) (path_from_in : option string)
    (first_tensor last_tensor : option tensor) (video_path : string)
    (first_rgb last_rgb : ndarray) (first last : tensor) :
  _extract_video_source video_in = (path_from_in, first_tensor, last_tensor) ->
  first_tensor = None \/ last_tensor = None ->
  outcome (_resolve_video_path h (Some (path_or path_from_in video)))
  = Ok video_path ->
  outcome (_read_first_last_frames h fuel (Some video_path))
  = Ok (first_rgb, last_rgb) ->
  outcome (_to_comfy_image (Some first_rgb)) = Ok first ->
  outcome (_to_comfy_image (Some last_rgb)) = Ok last ->
  outcome (load h fuel video video_in)
  = Ok match outcome (_save_temp_preview_png h first_rgb) with
       | Ok (Some p) => WithPreview p first last
       | _ => FramePair first last
       end.
Proof.
  intros Hsrc Hnone Hpath Hread Hfirst Hlast.
  unfold load. rewrite Hsrc.
  assert (Hgo : forall k : M load_result,
    outcome match first_tensor, last_tensor with
            | Some f, Some l => ret (FramePair f l)
            | _, _ => k
            end = outcome k).
  { intros k. destruct Hnone as [-> | ->]; [reflexivity|].
    destruct first_tensor; reflexivity. }
  rewrite Hgo.
  rewrite (outcome_bind_ok _ _ _ Hpath), (outcome_bind_ok _ _ _ Hread).
  cbv beta iota.
  destruct (save_preview_never_raises h first_rgb) as [t3 [r3 E]].
  rewrite E.
  rewrite (outcome_bind_ok (t3, Ok r3) _ r3 eq_refl).
  destruct r3 as [p|];
    rewrite (outcome_bind_ok _ _ _ Hfirst), (outcome_bind_ok _ _ _ Hlast);
    reflexivity.
Qed.

(** C6.  Persisting the preview never raises, and it returns [None]
    whenever one of its steps fails (no [folder_paths], no PIL, no
    temporary directory, a directory that cannot be made, an array PIL
    refuses, a file that cannot be written).  The extraction does not
    depend on it: when the path resolves, the frames decode and convert,
    [load] returns the two converted frames whether or not the preview
    was persisted, and without a preview they are all it returns. *)
Theorem preview_failure_is_harmless (h : Host) (fuel : nat) (video : string)
    (video_in : payload) (path_from_in : option string)
    (first_tensor last_tensor : option tensor) (video_path : string)
    (first_rgb last_rgb : ndarray) (first last : tensor) :
  _extract_video_source video_in = (path_from_in, first_tensor, last_tensor) ->
  first_tensor = None \/ last_tensor = None ->
  outcome (_resolve_video_path h (Some (path_or path_from_in video)))
  = Ok video_path ->
  outcome (_read_first_last_frames h fuel (Some video_path))
  = Ok (first_rgb, last_rgb) ->
  outcome (_to_comfy_image (Some first_rgb)) = Ok first ->
  outcome (_to_comfy_image (Some last_rgb)) = Ok last ->
  (exists t r, _save_temp_preview_png h first_rgb = (t, Ok r))
  /\ (exists r, outcome (load h fuel video video_in) = Ok r
                /\ result_frames r = (first, last))
  /\ (~ preview_steps_succeed h first_rgb ->
      outcome (_save_temp_preview_png h first_rgb) = Ok None
      /\ outcome (load h fuel video video_in) = Ok (FramePair first last)).
Proof.
  intros Hsrc Hnone Hpath Hread Hfirst Hlast.
  pose proof (load_after_decoding h fuel video video_in path_from_in
                first_tensor last_tensor video_path first_rgb last_rgb
                first last Hsrc Hnone Hpath Hread Hfirst Hlast) as Hload.
  split; [apply save_preview_never_raises|]. split.
  - eexists. split; [exact Hload|].
    destruct (outcome (_save_temp_preview_png h first_rgb)) as [[p|]| |];
      reflexivity.
  - intros Hfail.
    pose proof (save_preview_failure_is_none h first_rgb Hfail) as Hnone'.
    split; [exact Hnone'|]. rewrite Hload, Hnone'. reflexivity.
Qed.

Lemma preview_failure_is_harmless_witness :
  outcome (_save_temp_preview_png Sample.host_without_pil
             (mk_ndarray [1; 1; 3]%nat [255; 0; 0]%Z)) = Ok None
  /\ outcome (load Sample.host_without_pil 1 "clip.mp4" PNone)
     = Ok (FramePair (mk_tensor [1; 1; 1; 3]%nat [1; 0; 0])
                     (mk_tensor [1; 1; 1; 3]%nat [0; 0; 1])).
Proof.
  apply (proj2 (proj2
    (preview_failure_is_harmless Sample.host_without_pil 1 "clip.mp4" PNone
       None None None "/comfy/input/clip.mp4"
       (mk_ndarray [1; 1; 3]%nat [255; 0; 0]%Z)
       (mk_ndarray [1; 1; 3]%nat [0; 0; 255]%Z)
       (mk_tensor [1; 1; 1; 3]%nat [1; 0; 0])
       (mk_tensor [1; 1; 1; 3]%nat [0; 0; 1])
       eq_refl (or_introl eq_refl) eq_refl eq_refl eq_refl eq_refl))).
  intros (fp & image_lib & temp_dir & image & _ & Hpil & _).
  discriminate Hpil.
Defined.

(** ** The recent-files handler *)

Lemma outcome_bind_raise {A B} (m : M A) (k : A -> M B) (e : exn) :
  outcome m = Raise e -> outcome (bind m k) = Raise e.
Proof. destruct m as [t r]; simpl; intros ->. reflexivity. Qed.

Lemma outcome_try_ok {A} (catches : exn -> bool) (body : M A)
    (handler : exn -> M A) (a : A) :
  outcome body = Ok a -> outcome (try_except catches body handler) = Ok a.
Proof. destruct body as [t r]; simpl; intros ->. reflexivity. Qed.

Lemma outcome_try_caught {A} (body : M A) (handler : exn -> M A) (e : exn) :
  outcome body = Raise e ->
  outcome (try_except any_Exception body handler) = outcome (handler e).
Proof.
  destruct body as [t r]; simpl; intros ->. simpl.
  destruct (handler e); reflexivity.
Qed.

Lemma scan_names_entries (h : Host) (prefix directory : string)
    (names : list string) :
  outcome (scan_names h prefix directory names)
  = Ok (map (entry_of h prefix directory) (filter is_mp4 names)).
Proof.
  induction names as [|name names IH]; [reflexivity|].
  simpl. fold (is_mp4 name). destruct (is_mp4 name); simpl; [|exact IH].
  assert (Hm : outcome (try_except any_Exception
                 (os_path_getmtime h (OsPath.join directory name))
                 (fun _ => ret 0))
               = Ok (mtime_or_zero h (OsPath.join directory name))).
  { unfold os_path_getmtime, mtime_or_zero.
    destruct (getmtime h (OsPath.join directory name)); reflexivity. }
  rewrite (outcome_bind_ok _ _ _ Hm), (outcome_bind_ok _ _ _ IH).
  reflexivity.
Qed.

Lemma scan_candidates_entries (h : Host)
    (candidates : list (string * string)) :
  outcome (scan_candidates h candidates)
  = as_outcome (all_entries h candidates).
Proof.
  induction candidates as [|[prefix directory] candidates IH];
    [reflexivity|].
  simpl. unfold directory_entries, os_path_isdir, os_listdir. simpl.
  destruct (isdir h directory); simpl.
  - destruct (listdir h directory) as [names|e]; simpl; [|reflexivity].
    pose proof (scan_names_entries h prefix directory names) as Hn.
    destruct (scan_names h prefix directory names) as [t r].
    simpl in Hn. subst r. simpl.
    destruct (scan_candidates h candidates) as [t' r']. simpl in IH.
    destruct (all_entries h candidates) as [more|e]; simpl in IH; subst r';
      reflexivity.
  - destruct (scan_candidates h candidates) as [t' r']. simpl in *.
    rewrite IH. destruct (all_entries h candidates); reflexivity.
Qed.

Lemma insert_by_mtime_perm (x : Q * string) (l : list (Q * string)) :
  Permutation (insert_by_mtime x l) (x :: l).
Proof.
  induction l as [|y r IH]; simpl; [reflexivity|].
  destruct (Qle_bool (fst y) (fst x)); [reflexivity|].
  rewrite IH. apply perm_swap.
Qed.

Lemma sort_newest_first_perm (l : list (Q * string)) :
  Permutation (sort_newest_first l) l.
Proof.
  induction l as [|x l IH]; simpl; [reflexivity|].
  rewrite insert_by_mtime_perm. constructor. exact IH.
Qed.

Lemma insert_by_mtime_hd (x y : Q * string) (l : list (Q * string)) :
  newer_first y x -> HdRel newer_first y l ->
  HdRel newer_first y (insert_by_mtime x l).
Proof.
  intros Hx Hl. destruct l as [|z r]; simpl; [constructor; exact Hx|].
  destruct (Qle_bool (fst z) (fst x)); constructor; [exact Hx|].
  inversion Hl; assumption.
Qed.

Lemma insert_by_mtime_sorted (x : Q * string) (l : list (Q * string)) :
  Sorted newer_first l -> Sorted newer_first (insert_by_mtime x l).
Proof.
  induction 1 as [|y r Hr IH Hy]; simpl.
  - repeat constructor.
  - destruct (Qle_bool (fst y) (fst x)) eqn:E.
    + constructor; [constructor; assumption|].
      constructor. apply Qle_bool_iff. exact E.
    + constructor; [exact IH|].
      apply insert_by_mtime_hd; [|exact Hy].
      unfold newer_first.
      destruct (Qlt_le_dec (fst x) (fst y)) as [Hlt|Hle].
      * apply Qlt_le_weak. exact Hlt.
      * apply Qle_bool_iff in Hle. congruence.
Qed.

Lemma newer_first_trans : Relations_1.Transitive newer_first.
Proof.
  intros a b c Hab Hbc. unfold newer_first in *.
  apply Qle_trans with (fst b); assumption.
Qed.

Lemma sort_newest_first_sorted (l : list (Q * string)) :
  StronglySorted newer_first (sort_newest_first l).
Proof.
  apply Sorted_StronglySorted; [exact newer_first_trans|].
  induction l as [|x l IH]; simpl; [constructor|].
  apply insert_by_mtime_sorted. exact IH.
Qed.

Lemma in_firstn {A} (n : nat) (l : list A) (x : A) :
  In x (firstn n l) -> In x l.
Proof.
  revert l; induction n as [|n IH]; intros [|y l]; simpl;
    try contradiction.
  intros [H|H]; [left; exact H|right; apply IH; exact H].
Qed.

Lemma directory_entries_names (h : Host) (prefix directory : string)
    (entries : list (Q * string)) (e : Q * string) :
  directory_entries h prefix directory = Returns entries -> In e entries ->
  exists names name,
    isdir h directory = true /\ listdir h directory = Returns names
    /\ In name names /\ is_mp4 name = true
    /\ snd e = prefix ++ "/" ++ name.
Proof.
  unfold directory_entries. intros H Hin.
  destruct (isdir h directory); [|inversion H; subst; contradiction].
  destruct (listdir h directory) as [names|]; [|discriminate].
  inversion H; subst; clear H.
  apply in_map_iff in Hin. destruct Hin as (name & <- & Hname).
  apply filter_In in Hname. destruct Hname as [Hname Hext].
  exists names, name. auto.
Qed.

Lemma listing_names (h : Host) (fp : FolderPaths)
    (entries : list (Q * string)) (e : Q * string) :
  listing h fp = Returns entries -> In e entries ->
  listed_name h fp (snd e).
Proof.
  unfold listing. intros H Hin.
  destruct (get_input_directory fp) as [input_dir|] eqn:Ei; [|discriminate].
  destruct (get_output_directory fp) as [output_dir|] eqn:Eo;
    [|discriminate].
  simpl in H.
  destruct (directory_entries h "input" input_dir) as [e1|] eqn:E1;
    [|discriminate].
  destruct (directory_entries h "output" output_dir) as [e2|] eqn:E2;
    [|discriminate].
  inversion H; subst; clear H.
  rewrite app_nil_r in Hin. apply in_app_or in Hin.
  destruct Hin as [Hin|Hin].
  - destruct (directory_entries_names _ _ _ _ _ E1 Hin)
      as (names & name & Hd & Hl & Hn & Hx & Hs).
    exists "input", input_dir, names, name. auto 10.
  - destruct (directory_entries_names _ _ _ _ _ E2 Hin)
      as (names & name & Hd & Hl & Hn & Hx & Hs).
    exists "output", output_dir, names, name. auto 10.
Qed.

(** What the handler answers, in terms of [listing]. *)
Lemma recent_files_outcome (h : Host) (fp : FolderPaths) :
  outcome (videoframenode_recent h fp)
  = Ok match listing h fp with
       | Returns entries =>
           json_response
             (JFiles (map snd (firstn 50 (sort_newest_first entries))) None)
       | Throws e => json_response (JFiles [] (Some (exn_str e)))
       end.
Proof.
  unfold videoframenode_recent, listing.
  destruct (get_input_directory fp) as [input_dir|e]; [|reflexivity].
  destruct (get_output_directory fp) as [output_dir|e]; [|reflexivity].
  set (candidates := [("input", input_dir); ("output", output_dir)]).
  pose proof (scan_candidates_entries h candidates) as Hs.
  destruct (all_entries h candidates) as [entries|e]; simpl in Hs.
  - apply outcome_try_ok.
    rewrite (outcome_bind_ok (lift (Returns input_dir)) _ _ eq_refl).
    rewrite (outcome_bind_ok (lift (Returns output_dir)) _ _ eq_refl).
    rewrite (outcome_bind_ok _ _ _ Hs). reflexivity.
  - rewrite (outcome_try_caught _ _ e); [reflexivity|].
    rewrite (outcome_bind_ok (lift (Returns input_dir)) _ _ eq_refl).
    rewrite (outcome_bind_ok (lift (Returns output_dir)) _ _ eq_refl).
    apply outcome_bind_raise. exact Hs.
Qed.

(** C8.  The handler always answers, with status 200.  When the two
    directories are obtained and every existing one can be listed, the
    answer carries no error and its files are the first 50 at most of a
    ranking of the entries of [listing]: a rearrangement of them in which
    no entry is older than a later one; each file reads [input/name] or
    [output/name].  [listing] has an entry
    [prefix/name] for each name with the accepted extension right inside
    each existing directory, with time stamp 0 when the file's time cannot
    be read, and nothing for a directory that does not exist.  When
    something fails, the answer is an empty list with the failure's
    message. *)
Theorem recent_files_response (h : Host) (fp : FolderPaths) :
  exists t resp,
    videoframenode_recent h fp = (t, Ok resp)
    /\ status resp = 200%Z
    /\ match listing h fp with
       | Returns entries =>
           exists ranked,
             Permutation ranked entries
             /\ StronglySorted newer_first ranked
             /\ body resp = JFiles (map snd (firstn 50 ranked)) None
             /\ (length (map snd (firstn 50 ranked)) <= 50)%nat
             /\ Forall (listed_name h fp) (map snd (firstn 50 ranked))
       | Throws e => body resp = JFiles [] (Some (exn_str e))
       end.
Proof.
  pose proof (recent_files_outcome h fp) as H.
  destruct (videoframenode_recent h fp) as [t r]. simpl in H. subst r.
  do 2 eexists. split; [reflexivity|].
  destruct (listing h fp) as [entries|e] eqn:El.
  - split; [reflexivity|].
    exists (sort_newest_first entries).
    split; [apply sort_newest_first_perm|].
    split; [apply sort_newest_first_sorted|].
    split; [reflexivity|].
    split; [rewrite length_map; apply firstn_le_length|].
    apply Forall_forall. intros f Hf.
    apply in_map_iff in Hf. destruct Hf as (e & <- & He).
    apply (listing_names h fp entries e El).
    apply (Permutation_in e (sort_newest_first_perm entries)).
    apply (in_firstn _ _ _ He).
  - split; reflexivity.
Qed.

(** ** The upload handler *)

Lemma basename_from_no_slash (s cur : string) :
  PyStr.contains "/" s = false -> OsPath.basename_from cur s = cur.
Proof.
  induction s as [|c s IH]; simpl; [reflexivity|].
  intros H. apply orb_false_iff in H. destruct H as [Hc Hs].
  unfold OsPath.sep. rewrite Hc. apply IH. exact Hs.
Qed.

Lemma basename_from_strips (s cur : string) :
  PyStr.contains "/" s = true ->
  PyStr.contains "/" (OsPath.basename_from cur s) = false.
Proof.
  revert cur. induction s as [|c s IH]; simpl; [discriminate|].
  intros cur H. unfold OsPath.sep.
  destruct (Ascii.eqb c "/") eqn:Hc; simpl in H.
  - destruct (PyStr.contains "/" s) eqn:Hs.
    + apply IH. reflexivity.
    + rewrite basename_from_no_slash by exact Hs. exact Hs.
  - apply IH. exact H.
Qed.

(** A base name has no path component left. *)
Lemma basename_no_slash (p : string) :
  PyStr.contains "/" (OsPath.basename p) = false.
Proof.
  unfold OsPath.basename.
  destruct (PyStr.contains "/" p) eqn:H.
  - apply basename_from_strips. exact H.
  - rewrite basename_from_no_slash by exact H. exact H.
Qed.

(** Past the checks the handler answers 200 or lets an exception out. *)
Lemma upload_accepted_no_client_error (h : Host) (fp : FolderPaths)
    (file : form_value) :
  ~ client_error
      (input_dir <- lift (get_input_directory fp) ;;
       os_makedirs h input_dir ;;;
       data <- read_upload file ;;
       open_write h
         (OsPath.join input_dir (OsPath.basename (filename_of file))) data ;;;
       ret (json_response (JName (OsPath.basename (filename_of file))))).
Proof.
  intros (t & resp & E & Hs).
  unfold os_makedirs, open_write in E.
  destruct (get_input_directory fp) as [d|e]; simpl in E; [|discriminate].
  destruct (makedirs h d) as [[]|e]; simpl in E; [|discriminate].
  destruct (read_upload file) as [t1 [data| |]]; simpl in E;
    try discriminate.
  destruct (write_file h _ data) as [[]|e]; simpl in E; [|discriminate].
  inversion E; subst. simpl in Hs. lia.
Qed.

(** C9, as the code has it.  The handler answers with a client error
    exactly when the form is malformed, the field [file] is missing, or
    the file's name does not end in [.mp4] once lowered.  Otherwise, when
    the input directory is there, the upload can be read and the file
    written, it writes the bytes under the base name of the file's name
    inside the input directory and answers with that name, which has no
    path component. *)
Theorem upload_contract (h : Host) (fp : FolderPaths) (request : Request) :
  (client_error (videoframenode_upload h fp request) <-> rejected request)
  /\ (forall form f name input_dir data,
        post request = Returns form ->
        form_get "file" form = Some (FormFile f) ->
        ff_filename f = Some name ->
        is_mp4 name = true ->
        get_input_directory fp = Returns input_dir ->
        makedirs h input_dir = Returns tt ->
        ff_read f = Returns data ->
        write_file h (OsPath.join input_dir (OsPath.basename name)) data
        = Returns tt ->
        videoframenode_upload h fp request
        = ([EvMakeDirs input_dir;
            EvWriteFile (OsPath.join input_dir (OsPath.basename name)) data],
           Ok {| status := 200; body := JName (OsPath.basename name) |})
        /\ PyStr.contains "/" (OsPath.basename name) = false).
Proof.
  split.
  - unfold videoframenode_upload, rejected.
    destruct (post request) as [form|e].
    2:{ split; [trivial|]. intros _. do 2 eexists.
        split; [reflexivity|]. simpl. lia. }
    destruct (form_get "file" form) as [file|].
    2:{ split; [trivial|]. intros _. do 2 eexists.
        split; [reflexivity|]. simpl. lia. }
    fold (is_mp4 (filename_of file)).
    destruct (is_mp4 (filename_of file)); simpl negb; cbv iota.
    + split; [|discriminate]. intros H. exfalso.
      exact (upload_accepted_no_client_error h fp file H).
    + split; [reflexivity|]. intros _. do 2 eexists.
      split; [reflexivity|]. simpl. lia.
  - intros form f name input_dir data Hpost Hfile Hname Hext Hdir Hmk Hread
      Hwrite.
    split; [|apply basename_no_slash].
    unfold videoframenode_upload. rewrite Hpost, Hfile.
    unfold filename_of. rewrite Hname. fold (is_mp4 name). rewrite Hext.
    simpl negb. cbv iota.
    unfold os_makedirs, open_write, read_upload.
    rewrite Hdir. simpl. rewrite Hmk. simpl. rewrite Hread. simpl.
    rewrite Hwrite. reflexivity.
Qed.

Lemma upload_contract_witness :
  videoframenode_upload Sample.host Sample.comfy_paths
    (sample_upload "../videos/clip.mp4")
  = ([EvMakeDirs "/comfy/input";
      EvWriteFile "/comfy/input/clip.mp4" [Byte.x00; Byte.x01]],
     Ok {| status := 200; body := JName "clip.mp4" |})
  /\ PyStr.contains "/" "clip.mp4" = false.
Proof.
  apply (proj2 (upload_contract Sample.host Sample.comfy_paths
                  (sample_upload "../videos/clip.mp4"))
           _ _ "../videos/clip.mp4" "/comfy/input" [Byte.x00; Byte.x01]
           eq_refl eq_refl eq_refl eq_refl eq_refl eq_refl eq_refl eq_refl).
Defined.

(** C9 as stated fails on a name in capitals: [CLIP.MP4] does not end in
    [.mp4] letter for letter, and the handler stores it and answers 200. *)
Lemma upload_uppercase_counterexample :
  rejected_literally (sample_upload "CLIP.MP4")
  /\ videoframenode_upload Sample.host Sample.comfy_paths
       (sample_upload "CLIP.MP4")
     = ([EvMakeDirs "/comfy/input";
         EvWriteFile "/comfy/input/CLIP.MP4" [Byte.x00; Byte.x01]],
        Ok {| status := 200; body := JName "CLIP.MP4" |})
  /\ ~ client_error
         (videoframenode_upload Sample.host Sample.comfy_paths
            (sample_upload "CLIP.MP4")).
Proof.
  split; [reflexivity|]. split; [reflexivity|].
  intros (t & resp & E & Hs). inversion E; subst. simpl in Hs. lia.
Qed.

(** * Further properties *)

(** ** More on [_extract_video_source] *)

Lemma extract_from_sequence_or_tensor_well_formed (video_in : payload) :
  well_formed_source (extract_from_sequence_or_tensor video_in).
Proof.
  unfold extract_from_sequence_or_tensor, well_formed_source, no_source.
  destruct video_in as [|s|d|[|x r]|[|x r]|t|]; cbv iota beta;
    repeat match goal with
           | |- context [match ?x with _ => _ end] => destruct x
           | |- context [if ?b then _ else _] => destruct b
           end;
    eauto 6.
Qed.

(** X1.  Whatever the payload, the resolver returns nothing, a path
    without frames, or a first and a last frame without a path: never a
    path together with frames, never one frame alone. *)
Theorem extract_video_source_well_formed (video_in : payload) :
  well_formed_source (_extract_video_source video_in).
Proof.
  destruct video_in as [|s|d|l|l|t|];
    try apply extract_from_sequence_or_tensor_well_formed.
  - left; reflexivity.
  - right; left; eexists; reflexivity.
  - unfold _extract_video_source.
    destruct (lookup_path path_keys d) as [v|].
    + right; left; eexists; reflexivity.
    + destruct (dict_get "frames" d);
        apply extract_from_sequence_or_tensor_well_formed.
Qed.

Lemma prod_dims_3 (hh ww c : nat) :
  prod_dims [hh; ww; c] = (hh * ww * c)%nat.
Proof. unfold prod_dims; simpl. lia. Qed.

(** X2.  A 4-dimensional tensor of [b >= 1] images is split along the
    batch axis: the first frame is the first image and the last frame
    the last image, each of shape 1 x H x W x C with H*W*C items; with a
    single image both frames are the tensor itself.  A tensor of another
    rank, or with an empty batch, gives no source. *)
Theorem tensor_batch_first_last (t : tensor) :
  (forall b hh ww c,
      tshape t = [b; hh; ww; c] -> (1 <= b)%nat ->
      length (titems t) = (b * (hh * ww * c))%nat ->
      exists first last,
        _extract_video_source (PTensor t) = (None, Some first, Some last)
        /\ tshape first = [1%nat; hh; ww; c]
        /\ tshape last = [1%nat; hh; ww; c]
        /\ titems first = firstn (hh * ww * c) (titems t)
        /\ titems last = skipn ((b - 1) * (hh * ww * c)) (titems t)
        /\ length (titems first) = (hh * ww * c)%nat
        /\ length (titems last) = (hh * ww * c)%nat
        /\ (b = 1%nat -> first = t /\ last = t))
  /\ (tndim t <> 4%nat \/ nth 0 (tshape t) 0%nat = 0%nat ->
      _extract_video_source (PTensor t) = no_source).
Proof.
  split.
  - intros b hh ww c Hs Hb Hlen.
    unfold _extract_video_source, extract_from_sequence_or_tensor, tndim.
    rewrite Hs. simpl length. simpl nth.
    assert (E : (1 <=? b)%nat = true) by (apply Nat.leb_le; exact Hb).
    rewrite E. simpl andb. cbv iota.
    unfold slice_first, slice_last. rewrite Hs, prod_dims_3.
    assert (Hmin : Nat.min 1 b = 1%nat) by lia. rewrite Hmin.
    do 2 eexists. split; [reflexivity|]. simpl.
    repeat split.
    + rewrite length_firstn, Hlen. nia.
    + rewrite length_skipn, Hlen. nia.
    + subst b. destruct t as [sh its]. simpl in *. subst sh. f_equal.
      apply firstn_all2. lia.
    + subst b. destruct t as [sh its]. simpl in *. subst sh. reflexivity.
  - intros H.
    unfold _extract_video_source, extract_from_sequence_or_tensor.
    destruct (tndim t =? 4)%nat eqn:E1; [|reflexivity].
    destruct (1 <=? nth 0 (tshape t) 0)%nat eqn:E2; [|reflexivity].
    apply Nat.eqb_eq in E1. apply Nat.leb_le in E2.
    destruct H; [contradiction|lia].
Qed.

Lemma tensor_batch_first_last_witness :
  exists first last,
    _extract_video_source
      (PTensor (mk_tensor [2; 1; 1; 3]%nat [1; 0; 0; 0; 0; 1]))
    = (None, Some first, Some last)
    /\ tshape first = [1; 1; 1; 3]%nat
    /\ tshape last = [1; 1; 1; 3]%nat
    /\ titems first = [1; 0; 0] /\ titems last = [0; 0; 1].
Proof.
  destruct (proj1 (tensor_batch_first_last
                     (mk_tensor [2; 1; 1; 3]%nat [1; 0; 0; 0; 0; 1]))
              2%nat 1%nat 1%nat 3%nat eq_refl (le_S 1 1 (le_n 1)) eq_refl)
    as (first & last & E & S1 & S2 & I1 & I2 & _).
  exists first, last. repeat split; assumption.
Defined.

Lemma lookup_path_skips (d : list (string * payload))
    (before : list string) (keys : list string) :
  (forall k, In k before -> passed_over (dict_get k d)) ->
  lookup_path (before ++ keys) d = lookup_path keys d.
Proof.
  induction before as [|k before IH]; intros H; [reflexivity|].
  simpl. pose proof (H k (or_introl eq_refl)) as Hk.
  rewrite IH by (intros k' Hk'; apply H; right; exact Hk').
  destruct (dict_get k d); try reflexivity.
  simpl in Hk. rewrite Hk. reflexivity.
Qed.

(** X3.  In a dict the keys [path], [fullpath], [filename], [file],
    [video], [name] are tried in this order.  The value returned as the
    path is the one under the first key that holds a string that is not
    blank: keys that hold a blank string or a value of another type are
    passed over, and neither the later keys nor [frames] matter. *)
Theorem dict_first_path_key_wins (d : list (string * payload))
    (before after : list string) (k v : string) :
  path_keys = (before ++ k :: after)%list ->
  (forall k', In k' before -> passed_over (dict_get k' d)) ->
  dict_get k d = PStr v ->
  PyStr.strip v <> "" ->
  _extract_video_source (PDict d) = (Some v, None, None).
Proof.
  intros Hkeys Hbefore Hk Hv. unfold _extract_video_source.
  rewrite Hkeys, (lookup_path_skips d before (k :: after) Hbefore).
  simpl. rewrite Hk.
  destruct (PyStr.strip v); [congruence|reflexivity].
Qed.

Lemma dict_first_path_key_wins_witness :
  _extract_video_source
    (PDict [("name", PStr "b.mp4"); ("path", PStr "  ");
            ("fullpath", POther); ("filename", PStr "a.mp4");
            ("frames", PList [PStr "c.mp4"])])
  = (Some "a.mp4", None, None).
Proof.
  apply (dict_first_path_key_wins _ ["path"; "fullpath"] ["file"; "video"; "name"]
           "filename" "a.mp4" eq_refl).
  - intros k' [<-|[<-|[]]]; simpl; reflexivity.
  - reflexivity.
  - discriminate.
Defined.

(** X4.  A dict without a usable path key hands over to its [frames]
    entry: a list, a tuple or a tensor there is resolved exactly as if it
    had been passed directly.  A string or a dict under [frames] is not
    looked into, and the dict then gives no source, as it does when
    [frames] is missing. *)
Theorem dict_embedded_frames (d : list (string * payload)) :
  lookup_path path_keys d = None ->
  match dict_get "frames" d with
  | PList l =>
      _extract_video_source (PDict d) = _extract_video_source (PList l)
  | PTuple l =>
      _extract_video_source (PDict d) = _extract_video_source (PTuple l)
  | PTensor t =>
      _extract_video_source (PDict d) = _extract_video_source (PTensor t)
  | PNone | PStr _ | PDict _ | POther =>
      _extract_video_source (PDict d) = no_source
  end.
Proof.
  intros Hkeys. unfold _extract_video_source. rewrite Hkeys.
  destruct (dict_get "frames" d); reflexivity.
Qed.

Lemma dict_embedded_frames_witness :
  _extract_video_source
    (PDict [("fps", POther);
            ("frames", PList [PTensor (mk_tensor [1; 1; 3]%nat [1; 0; 0]);
                              PTensor (mk_tensor [1; 1; 3]%nat [0; 0; 1])])])
  = _extract_video_source
      (PList [PTensor (mk_tensor [1; 1; 3]%nat [1; 0; 0]);
              PTensor (mk_tensor [1; 1; 3]%nat [0; 0; 1])])
  /\ _extract_video_source (PDict [("frames", PStr "clip.mp4")]) = no_source.
Proof.
  split.
  - exact (dict_embedded_frames
             [("fps", POther);
              ("frames", PList [PTensor (mk_tensor [1; 1; 3]%nat [1; 0; 0]);
                                PTensor (mk_tensor [1; 1; 3]%nat [0; 0; 1])])]
             eq_refl).
  - exact (dict_embedded_frames [("frames", PStr "clip.mp4")] eq_refl).
Defined.

Lemma extract_list_tuple_alike (l : list payload) :
  extract_from_sequence_or_tensor (PList l)
  = extract_from_sequence_or_tensor (PTuple l).
Proof. destruct l; reflexivity. Qed.

(** X5.  Lists and tuples are treated alike, and unless every item is a
    tensor only the head counts: with a head that is not a tensor the
    result is that of the one-item list, whatever follows; a string head
    is returned as the path even when it is blank; a list that starts
    with a tensor and holds something else gives no source. *)
Theorem sequence_resolved_from_head (x : payload) (rest : list payload) :
  (forall l, _extract_video_source (PList l)
             = _extract_video_source (PTuple l))
  /\ (is_tensor x = false ->
      _extract_video_source (PList (x :: rest))
      = _extract_video_source (PList [x]))
  /\ (forall s, x = PStr s ->
        _extract_video_source (PList (x :: rest)) = (Some s, None, None))
  /\ (is_tensor x = true -> forallb is_tensor rest = false ->
      _extract_video_source (PList (x :: rest)) = no_source).
Proof.
  split; [exact extract_list_tuple_alike|].
  unfold _extract_video_source, extract_from_sequence_or_tensor.
  split; [|split].
  - intros Hx. simpl forallb. simpl hd. rewrite Hx. simpl andb. cbv iota.
    destruct x; try discriminate; reflexivity.
  - intros s ->. reflexivity.
  - intros Hx Hrest. simpl forallb. rewrite Hx, Hrest. simpl andb.
    cbv iota. simpl hd. destruct x; try discriminate. reflexivity.
Qed.

Lemma sequence_resolved_from_head_witness :
  _extract_video_source (PList [PStr ""; PStr "clip.mp4"])
  = (Some "", None, None)
  /\ _extract_video_source
       (PList [PTensor (mk_tensor [1; 1; 3]%nat [1; 0; 0]); PStr "clip.mp4"])
     = no_source.
Proof.
  split.
  - exact (proj1 (proj2 (proj2
             (sequence_resolved_from_head (PStr "") [PStr "clip.mp4"])))
             "" eq_refl).
  - exact (proj2 (proj2 (proj2
             (sequence_resolved_from_head
                (PTensor (mk_tensor [1; 1; 3]%nat [1; 0; 0]))
                [PStr "clip.mp4"])))
             eq_refl eq_refl).
Defined.

(** ** More on [_read_first_last_frames] *)

Lemma last_cons_default {A} (x d : A) (l : list A) :
  last (x :: l) d = last l x.
Proof.
  revert x d; induction l as [|y l IH]; intros x d; [reflexivity|].
  change (last (x :: y :: l) d) with (last (y :: l) d).
  rewrite (IH y d), (IH y x). reflexivity.
Qed.

Lemma scan_to_end_reads (cv : Cv2) (fs : list ndarray) :
  forall (fuel : nat) (c c' : cap cv) (last_bgr : ndarray),
    reads_frames cv c fs c' -> read_fails cv c' ->
    (length fs < fuel)%nat ->
    scan_to_end cv fuel c last_bgr = ret (last fs last_bgr).
Proof.
  induction fs as [|f fs IH]; intros fuel c c' last_bgr Hreads Hfail Hfuel.
  - simpl in Hreads. subst c'. apply scan_to_end_nothing; assumption.
  - destruct Hreads as (c1 & Hread & Hrest).
    destruct fuel as [|k]; [simpl in Hfuel; lia|].
    simpl scan_to_end. rewrite Hread.
    rewrite (IH k c1 c' f Hrest Hfail) by (simpl in Hfuel; lia).
    rewrite last_cons_default. reflexivity.
Qed.

Lemma scan_to_end_no_raise (cv : Cv2) (fuel : nat) :
  forall (c : cap cv) (last_bgr : ndarray),
    trace (scan_to_end cv fuel c last_bgr) = []
    /\ forall e, outcome (scan_to_end cv fuel c last_bgr) <> Raise e.
Proof.
  induction fuel as [|k IH]; intros c last_bgr; simpl.
  - split; [reflexivity|discriminate].
  - destruct (cap_read cv c) as [[[|] [f|]] c'];
      try (split; [reflexivity|discriminate]).
    apply IH.
Qed.

(** OpenCV code raises [ValueError] only. *)
Lemma read_with_cv2_raises (cv : Cv2) (fuel : nat) (p : string) (e : exn) :
  outcome (read_with_cv2 cv fuel p) = Raise e -> is_ImportError e = false.
Proof.
  unfold read_with_cv2. simpl.
  destruct (isOpened cv (VideoCapture cv p)); simpl;
    [|intros [= <-]; reflexivity].
  destruct (cap_read cv (VideoCapture cv p)) as [[[|] [first_bgr|]] c1];
    simpl; try (intros [= <-]; reflexivity).
  set (n := int_of_float (float_or_zero (cap_get_frame_count cv c1))).
  destruct (1 <? n)%Z.
  - destruct (cap_read cv (cap_set_pos_frames cv (n - 1) c1))
      as [[[|] [last_bgr|]] c3]; simpl; try discriminate;
      destruct (scan_to_end_no_raise cv fuel c3 first_bgr) as [Ht Hr];
      destruct (scan_to_end cv fuel c3 first_bgr) as [t [l| e'|]];
      simpl in *; try discriminate; intros [= <-]; exfalso;
      exact (Hr e' eq_refl).
  - destruct (scan_to_end_no_raise cv fuel c1 first_bgr) as [Ht Hr].
    destruct (scan_to_end cv fuel c1 first_bgr) as [t [l| e'|]];
      simpl in *; try discriminate. intros [= <-]. exfalso.
    exact (Hr e' eq_refl).
Qed.

(** With OpenCV installed and a file at the path, the decoder is the
    file test followed by the OpenCV code; imageio plays no part. *)
Lemma read_frames_via_cv2 (h : Host) (cv : Cv2) (fuel : nat)
    (video_path : string) :
  PyStr.strip video_path <> "" ->
  isfile h (expanded_path h video_path) = true ->
  cv2 h = Some cv ->
  _read_first_last_frames h fuel (Some video_path)
  = (EvIsFile (expanded_path h video_path)
       :: trace (read_with_cv2 cv fuel (expanded_path h video_path)),
     outcome (read_with_cv2 cv fuel (expanded_path h video_path))).
Proof.
  intros Hne Hfile Hcv.
  unfold _read_first_last_frames. fold (expanded_path h video_path).
  destruct (PyStr.strip video_path) as [|c s] eqn:E; [congruence|].
  simpl PyStr.truthy. simpl negb. cbv iota.
  unfold os_path_isfile. rewrite Hfile, Hcv.
  pose proof (read_with_cv2_raises cv fuel (expanded_path h video_path))
    as Hraise.
  simpl.
  destruct (read_with_cv2 cv fuel (expanded_path h video_path))
    as [t [r|e|]]; simpl in *; try reflexivity.
  rewrite (Hraise e eq_refl). reflexivity.
Qed.

(** X6.  When OpenCV reports more than one frame and the read after the
    seek to the last index succeeds, the decoder returns the first frame
    and that frame, both converted to RGB.  The loop is not entered, so
    no fuel is needed, and the capture is released once. *)
Theorem seek_gives_last_frame (h : Host) (cv : Cv2) (fuel : nat)
    (video_path : string) (first_bgr last_bgr : ndarray) (c1 c3 : cap cv) :
  PyStr.strip video_path <> "" ->
  isfile h (expanded_path h video_path) = true ->
  cv2 h = Some cv ->
  isOpened cv (VideoCapture cv (expanded_path h video_path)) = true ->
  cap_read cv (VideoCapture cv (expanded_path h video_path))
  = ((true, Some first_bgr), c1) ->
  (1 < reported_frame_count cv c1)%Z ->
  cap_read cv (seek_last cv c1) = ((true, Some last_bgr), c3) ->
  _read_first_last_frames h fuel (Some video_path)
  = ([EvIsFile (expanded_path h video_path);
      EvOpenVideo (expanded_path h video_path); EvReleaseVideo],
     Ok (cvtColor_BGR2RGB cv first_bgr, cvtColor_BGR2RGB cv last_bgr)).
Proof.
  intros Hne Hfile Hcv Hopen Hread Hcount Hseek.
  rewrite (read_frames_via_cv2 h cv fuel video_path Hne Hfile Hcv).
  unfold read_with_cv2. rewrite Hopen, Hread. simpl.
  fold (reported_frame_count cv c1).
  apply Z.ltb_lt in Hcount. rewrite Hcount.
  unfold seek_last in Hseek. rewrite Hseek. reflexivity.
Qed.

Lemma seek_gives_last_frame_witness :
  _read_first_last_frames Sample.host 0 (Some " /comfy/input/clip.mp4 ")
  = ([EvIsFile "/comfy/input/clip.mp4"; EvOpenVideo "/comfy/input/clip.mp4";
      EvReleaseVideo],
     Ok (mk_ndarray [1; 1; 3]%nat [255; 0; 0]%Z,
         mk_ndarray [1; 1; 3]%nat [0; 0; 255]%Z)).
Proof.
  apply (seek_gives_last_frame Sample.host Sample.opencv 0
           " /comfy/input/clip.mp4 " Sample.red_bgr Sample.blue_bgr
           {| Sample.lc_frames :=
                [Sample.red_bgr; Sample.green_bgr; Sample.blue_bgr];
              Sample.lc_pos := 1; Sample.lc_open := true |}
           {| Sample.lc_frames :=
                [Sample.red_bgr; Sample.green_bgr; Sample.blue_bgr];
              Sample.lc_pos := 3; Sample.lc_open := true |}).
  - discriminate.
  - reflexivity.
  - reflexivity.
  - reflexivity.
  - reflexivity.
  - vm_compute. reflexivity.
  - reflexivity.
Defined.

(** X7.  When the reported count is at most 1 the decoder reads on until
    a read fails.  If the capture still holds the frames [rest], the
    loop ends once there is fuel for more than [length rest] turns, and
    the last frame returned is the last of [rest] (the first frame when
    [rest] is empty); the capture is released once. *)
Theorem scan_keeps_last_frame (h : Host) (cv : Cv2) (fuel : nat)
    (video_path : string) (first_bgr : ndarray) (rest : list ndarray)
    (c1 c_end : cap cv) :
  PyStr.strip video_path <> "" ->
  isfile h (expanded_path h video_path) = true ->
  cv2 h = Some cv ->
  isOpened cv (VideoCapture cv (expanded_path h video_path)) = true ->
  cap_read cv (VideoCapture cv (expanded_path h video_path))
  = ((true, Some first_bgr), c1) ->
  (reported_frame_count cv c1 <= 1)%Z ->
  reads_frames cv c1 rest c_end ->
  read_fails cv c_end ->
  (length rest < fuel)%nat ->
  _read_first_last_frames h fuel (Some video_path)
  = ([EvIsFile (expanded_path h video_path);
      EvOpenVideo (expanded_path h video_path); EvReleaseVideo],
     Ok (cvtColor_BGR2RGB cv first_bgr,
         cvtColor_BGR2RGB cv (last rest first_bgr))).
Proof.
  intros Hne Hfile Hcv Hopen Hread Hcount Hreads Hfail Hfuel.
  rewrite (read_frames_via_cv2 h cv fuel video_path Hne Hfile Hcv).
  unfold read_with_cv2. rewrite Hopen, Hread. simpl.
  fold (reported_frame_count cv c1).
  destruct (1 <? reported_frame_count cv c1)%Z eqn:Hlt;
    [apply Z.ltb_lt in Hlt; lia|].
  rewrite (scan_to_end_reads cv rest fuel c1 c_end first_bgr
             Hreads Hfail Hfuel).
  reflexivity.
Qed.

(** X8.  When more than one frame is reported but the read after the
    seek fails, the decoder does not give up: it reads on from where that
    failed read left the capture, and the last frame is the last one it
    still gets, the first frame if it gets none. *)
Theorem failed_seek_falls_back_to_scan (h : Host) (cv : Cv2) (fuel : nat)
    (video_path : string) (first_bgr : ndarray) (rest : list ndarray)
    (c1 c_end : cap cv) :
  PyStr.strip video_path <> "" ->
  isfile h (expanded_path h video_path) = true ->
  cv2 h = Some cv ->
  isOpened cv (VideoCapture cv (expanded_path h video_path)) = true ->
  cap_read cv (VideoCapture cv (expanded_path h video_path))
  = ((true, Some first_bgr), c1) ->
  (1 < reported_frame_count cv c1)%Z ->
  read_fails cv (seek_last cv c1) ->
  reads_frames cv (snd (cap_read cv (seek_last cv c1))) rest c_end ->
  read_fails cv c_end ->
  (length rest < fuel)%nat ->
  _read_first_last_frames h fuel (Some video_path)
  = ([EvIsFile (expanded_path h video_path);
      EvOpenVideo (expanded_path h video_path); EvReleaseVideo],
     Ok (cvtColor_BGR2RGB cv first_bgr,
         cvtColor_BGR2RGB cv (last rest first_bgr))).
Proof.
  intros Hne Hfile Hcv Hopen Hread Hcount Hseek Hreads Hfail Hfuel.
  rewrite (read_frames_via_cv2 h cv fuel video_path Hne Hfile Hcv).
  unfold read_with_cv2. rewrite Hopen, Hread. simpl.
  fold (reported_frame_count cv c1).
  apply Z.ltb_lt in Hcount. rewrite Hcount.
  fold (seek_last cv c1). unfold read_fails in Hseek.
  destruct (cap_read cv (seek_last cv c1)) as [[ok fr] c3].
  simpl in Hseek, Hreads.
  assert (E : scan_to_end cv fuel c3 first_bgr = ret (last rest first_bgr))
    by exact (scan_to_end_reads cv rest fuel c3 c_end first_bgr
                Hreads Hfail Hfuel).
  destruct ok; [destruct fr as [f|]|];
    try (rewrite E; reflexivity).
  exfalso. exact (Hseek f eq_refl).
Qed.

Lemma scan_keeps_last_frame_witness :
  _read_first_last_frames
    (Variants.with_decoders (Some Variants.opencv_stream) None) 3
    (Some "/comfy/input/clip.mp4")
  = ([EvIsFile "/comfy/input/clip.mp4"; EvOpenVideo "/comfy/input/clip.mp4";
      EvReleaseVideo],
     Ok (mk_ndarray [1; 1; 3]%nat [255; 0; 0]%Z,
         mk_ndarray [1; 1; 3]%nat [0; 0; 255]%Z)).
Proof.
  pose (at_pos := fun n =>
    {| Sample.lc_frames :=
         [Sample.red_bgr; Sample.green_bgr; Sample.blue_bgr];
       Sample.lc_pos := n; Sample.lc_open := true |}).
  apply (scan_keeps_last_frame
           (Variants.with_decoders (Some Variants.opencv_stream) None)
           Variants.opencv_stream 3 "/comfy/input/clip.mp4"
           Sample.red_bgr [Sample.green_bgr; Sample.blue_bgr]
           (at_pos 1%nat) (at_pos 3%nat)).
  - discriminate.
  - reflexivity.
  - reflexivity.
  - reflexivity.
  - reflexivity.
  - vm_compute. discriminate.
  - simpl. exists (at_pos 2%nat). split; [reflexivity|].
    exists (at_pos 3%nat). split; reflexivity.
  - intros f. simpl. discriminate.
  - simpl. lia.
Defined.

Lemma failed_seek_falls_back_to_scan_witness :
  _read_first_last_frames
    (Variants.with_decoders (Some Variants.opencv_overcount) None) 1
    (Some "/comfy/input/clip.mp4")
  = ([EvIsFile "/comfy/input/clip.mp4"; EvOpenVideo "/comfy/input/clip.mp4";
      EvReleaseVideo],
     Ok (mk_ndarray [1; 1; 3]%nat [255; 0; 0]%Z,
         mk_ndarray [1; 1; 3]%nat [255; 0; 0]%Z)).
Proof.
  pose (at_pos := fun n =>
    {| Sample.lc_frames :=
         [Sample.red_bgr; Sample.green_bgr; Sample.blue_bgr];
       Sample.lc_pos := n; Sample.lc_open := true |}).
  apply (failed_seek_falls_back_to_scan
           (Variants.with_decoders (Some Variants.opencv_overcount) None)
           Variants.opencv_overcount 1 "/comfy/input/clip.mp4"
           Sample.red_bgr [] (at_pos 1%nat) (at_pos 7%nat)).
  - discriminate.
  - reflexivity.
  - reflexivity.
  - reflexivity.
  - reflexivity.
  - vm_compute. reflexivity.
  - intros f. vm_compute. discriminate.
  - vm_compute. reflexivity.
  - intros f. vm_compute. discriminate.
  - simpl. lia.
Defined.

(** X9.  With OpenCV installed there is no second chance: a file OpenCV
    cannot open raises [ValueError] and leaves no capture to release, and
    a file whose first frame cannot be read raises [ValueError] after the
    capture is released.  imageio is not tried in either case. *)
Theorem opencv_failures_are_value_errors (h : Host) (cv : Cv2) (fuel : nat)
    (video_path : string) :
  PyStr.strip video_path <> "" ->
  isfile h (expanded_path h video_path) = true ->
  cv2 h = Some cv ->
  (isOpened cv (VideoCapture cv (expanded_path h video_path)) = false ->
   _read_first_last_frames h fuel (Some video_path)
   = ([EvIsFile (expanded_path h video_path);
       EvOpenVideo (expanded_path h video_path)],
      Raise (ValueError
               ("Failed to open video: " ++ expanded_path h video_path))))
  /\ (isOpened cv (VideoCapture cv (expanded_path h video_path)) = true ->
      read_fails cv (VideoCapture cv (expanded_path h video_path)) ->
      _read_first_last_frames h fuel (Some video_path)
      = ([EvIsFile (expanded_path h video_path);
          EvOpenVideo (expanded_path h video_path); EvReleaseVideo],
         Raise (ValueError "Failed to read the first frame"))).
Proof.
  intros Hne Hfile Hcv.
  rewrite (read_frames_via_cv2 h cv fuel video_path Hne Hfile Hcv).
  unfold read_with_cv2. split.
  - intros ->. reflexivity.
  - intros -> Hfail. simpl. unfold read_fails in Hfail.
    destruct (cap_read cv (VideoCapture cv (expanded_path h video_path)))
      as [[ok fr] c1].
    simpl in Hfail. destruct ok; [destruct fr as [f|]|]; try reflexivity.
    exfalso. exact (Hfail f eq_refl).
Qed.

Lemma opencv_failures_are_value_errors_witness :
  _read_first_last_frames
    (Variants.with_decoders (Some Broken.opencv_closed)
       (Some Variants.imageio_rgba)) 1 (Some "/comfy/input/clip.mp4")
  = ([EvIsFile "/comfy/input/clip.mp4"; EvOpenVideo "/comfy/input/clip.mp4"],
     Raise (ValueError "Failed to open video: /comfy/input/clip.mp4"))
  /\ _read_first_last_frames
       (Variants.with_decoders (Some Broken.opencv_empty)
          (Some Variants.imageio_rgba)) 1 (Some "/comfy/input/clip.mp4")
     = ([EvIsFile "/comfy/input/clip.mp4";
         EvOpenVideo "/comfy/input/clip.mp4"; EvReleaseVideo],
        Raise (ValueError "Failed to read the first frame")).
Proof.
  split.
  - apply (proj1 (opencv_failures_are_value_errors
                    (Variants.with_decoders (Some Broken.opencv_closed)
                       (Some Variants.imageio_rgba))
                    Broken.opencv_closed 1 "/comfy/input/clip.mp4"
                    ltac:(discriminate) eq_refl eq_refl)).
    reflexivity.
  - apply (proj2 (opencv_failures_are_value_errors
                    (Variants.with_decoders (Some Broken.opencv_empty)
                       (Some Variants.imageio_rgba))
                    Broken.opencv_empty 1 "/comfy/input/clip.mp4"
                    ltac:(discriminate) eq_refl eq_refl)).
    + reflexivity.
    + intros f. simpl. discriminate.
Defined.



(** ** Channel truncation *)

Lemma first3_channels_length (npix c : nat) :
  (3 <= c)%nat ->
  forall l, length l = (npix * c)%nat ->
            length (first3_channels npix c l) = (npix * 3)%nat.
Proof.
  intros Hc. induction npix as [|k IH]; intros l Hl; [reflexivity|].
  cbn [first3_channels]. rewrite length_app, length_firstn.
  rewrite IH by (rewrite length_skipn; simpl in Hl; lia).
  assert (c <= length l)%nat by (rewrite Hl; simpl; lia). lia.
Qed.

Lemma first3_channels_nth (npix c : nat) :
  (3 <= c)%nat ->
  forall (l : list Z) (i j : nat),
    length l = (npix * c)%nat -> (i < npix)%nat -> (j < 3)%nat ->
    nth (3 * i + j) (first3_channels npix c l) 0%Z
    = nth (c * i + j) l 0%Z.
Proof.
  intros Hc. induction npix as [|k IH]; intros l i j Hl Hi Hj; [lia|].
  cbn [first3_channels].
  assert (Hlen : (c <= length l)%nat) by (rewrite Hl; simpl; lia).
  assert (Hf : length (firstn 3 l) = 3%nat)
    by (rewrite length_firstn; lia).
  destruct i as [|i].
  - rewrite Nat.mul_0_r, Nat.mul_0_r. simpl plus.
    rewrite app_nth1 by lia. rewrite nth_firstn.
    destruct (Nat.ltb_spec j 3); [reflexivity|lia].
  - replace (3 * S i + j)%nat with (length (firstn 3 l) + (3 * i + j))%nat
      by lia.
    rewrite app_nth2_plus.
    rewrite IH; [|rewrite length_skipn; simpl in Hl; lia|lia|lia].
    rewrite nth_skipn. f_equal. lia.
Qed.

Lemma first3_channels_rgb (npix : nat) :
  forall l, length l = (npix * 3)%nat -> first3_channels npix 3 l = l.
Proof.
  induction npix as [|k IH]; intros l Hl.
  - destruct l; [reflexivity|discriminate].
  - cbn [first3_channels].
    rewrite IH by (rewrite length_skipn; simpl in Hl; lia).
    apply firstn_skipn.
Qed.

(** X11.  On the imageio path an array of shape H x W x C with C >= 3
    loses its channels past the third: the result has shape H x W x 3,
    H*W*3 items, and channel [j] of pixel [i] is channel [j] of pixel [i]
    of the input.  An array that already has three channels is returned
    as it is, and so is an array of another rank or with fewer than three
    channels. *)
Theorem ensure_rgb_keeps_first_three_channels (a : ndarray) :
  (forall hh ww c,
      shape a = [hh; ww; c] -> (3 <= c)%nat ->
      length (items a) = (hh * ww * c)%nat ->
      shape (ensure_rgb a) = [hh; ww; 3%nat]
      /\ length (items (ensure_rgb a)) = (hh * ww * 3)%nat
      /\ (forall i j, (i < hh * ww)%nat -> (j < 3)%nat ->
            nth (3 * i + j) (items (ensure_rgb a)) 0%Z
            = nth (c * i + j) (items a) 0%Z)
      /\ (c = 3%nat -> ensure_rgb a = a))
  /\ (ndim a <> 3%nat \/ (nth 2 (shape a) 0 < 3)%nat -> ensure_rgb a = a).
Proof.
  split.
  - intros hh ww c Hs Hc Hl. unfold ensure_rgb. rewrite Hs.
    assert (E : (3 <=? c)%nat = true) by (apply Nat.leb_le; exact Hc).
    rewrite E. simpl shape. simpl items.
    split; [reflexivity|].
    split; [apply first3_channels_length; assumption|].
    split; [intros i j Hi Hj; apply first3_channels_nth; assumption|].
    intros ->. rewrite first3_channels_rgb by exact Hl.
    destruct a as [sh its]. simpl in *. subst sh. reflexivity.
  - intros H. unfold ensure_rgb, ndim in *.
    destruct (shape a) as [|hh [|ww [|c [|x r]]]]; try reflexivity.
    simpl in H. destruct (Nat.leb_spec 3 c) as [Hc|Hc]; [|reflexivity].
    destruct H as [H|H]; [congruence|lia].
Qed.

Lemma ensure_rgb_keeps_first_three_channels_witness :
  shape (ensure_rgb (mk_ndarray [1; 2; 4]%nat [1; 2; 3; 4; 5; 6; 7; 8]%Z))
  = [1; 2; 3]%nat
  /\ length (items (ensure_rgb
               (mk_ndarray [1; 2; 4]%nat [1; 2; 3; 4; 5; 6; 7; 8]%Z)))
     = 6%nat
  /\ nth 4 (items (ensure_rgb
              (mk_ndarray [1; 2; 4]%nat [1; 2; 3; 4; 5; 6; 7; 8]%Z))) 0%Z
     = 6%Z.
Proof.
  destruct (proj1 (ensure_rgb_keeps_first_three_channels
                     (mk_ndarray [1; 2; 4]%nat [1; 2; 3; 4; 5; 6; 7; 8]%Z))
              1%nat 2%nat 4%nat eq_refl ltac:(lia) eq_refl)
    as (Hs & Hl & Hn & _).
  split; [exact Hs|]. split; [exact Hl|].
  exact (Hn 1%nat 1%nat ltac:(simpl; lia) ltac:(lia)).
Defined.

(** ** More on [_save_temp_preview_png] and [load] *)

(** X12.  The preview is persisted exactly when all its steps go
    through.  Then the temporary directory is made, the first frame is
    saved in it under [videoframe_preview_<uuid>.png], and the descriptor
    returned names that file, an empty subfolder and the type [temp]. *)
Theorem preview_persisted_iff_steps_succeed (h : Host) (frame_rgb : ndarray) :
  (preview_steps_succeed h frame_rgb ->
   exists temp_dir,
     temp_directory h = Some temp_dir
     /\ _save_temp_preview_png h frame_rgb
        = ([EvMakeDirs temp_dir;
            EvSavePng (OsPath.join temp_dir (preview_filename h)) frame_rgb],
           Ok (Some (preview_descriptor h))))
  /\ (forall d,
        outcome (_save_temp_preview_png h frame_rgb) = Ok (Some d) ->
        preview_steps_succeed h frame_rgb /\ d = preview_descriptor h).
Proof.
  unfold _save_temp_preview_png, os_makedirs, temp_directory. split.
  - intros (fp & pl & temp_dir & image & H1 & H2 & H3 & H4 & H5 & H6).
    exists temp_dir. rewrite H1, H3. split; [reflexivity|].
    simpl. rewrite H2. simpl. rewrite H3. simpl. rewrite H4. simpl.
    rewrite H5. simpl.
    destruct (image_save pl image _) as [[]|e] eqn:E6; [reflexivity|].
    discriminate H6.
  - intros d.
    destruct (folder_paths h) as [fp|] eqn:E1; simpl; [|discriminate].
    destruct (pil h) as [pl|] eqn:E2; simpl; [|discriminate].
    destruct (get_temp_directory fp) as [temp_dir|e] eqn:E3; simpl;
      [|discriminate].
    destruct (makedirs h temp_dir) as [[]|e] eqn:E4; simpl; [|discriminate].
    destruct (fromarray pl frame_rgb) as [image|e] eqn:E5; simpl;
      [|discriminate].
    destruct (image_save pl image _) as [[]|e] eqn:E6; simpl;
      [|discriminate].
    intros [= <-]. split; [|reflexivity].
    exists fp, pl, temp_dir, image. auto 10.
Qed.

Lemma preview_persisted_iff_steps_succeed_witness :
  _save_temp_preview_png Sample.host Sample.red_bgr
  = ([EvMakeDirs "/comfy/temp";
      EvSavePng
        "/comfy/temp/videoframe_preview_0123456789abcdef0123456789abcdef.png"
        Sample.red_bgr],
     Ok (Some {| pd_filename :=
                   "videoframe_preview_0123456789abcdef0123456789abcdef.png";
                 pd_subfolder := ""; pd_type := "temp" |})).
Proof.
  destruct (proj1 (preview_persisted_iff_steps_succeed Sample.host
                     Sample.red_bgr)) as (temp_dir & Ht & E).
  - exists Sample.comfy_paths, Sample.pillow, "/comfy/temp", Sample.red_bgr.
    repeat split.
  - injection Ht as <-. exact E.
Defined.

(** X13.  [load] follows the resolver.  Two frames from the payload are
    returned at once, without any interaction with the operating system.
    A path from the payload, when it is not empty, makes [load] behave as
    if it were the primary argument.  In every other case, an
    unrecognised payload included, the primary argument is the path. *)
Theorem load_follows_source (h : Host) (fuel : nat) (video : string)
    (video_in : payload) :
  match _extract_video_source video_in with
  | (_, Some first, Some last) =>
      load h fuel video video_in = ([], Ok (FramePair first last))
  | (Some p, _, _) =>
      if PyStr.truthy p
      then load h fuel video video_in = load h fuel p PNone
      else load h fuel video video_in = load h fuel video PNone
  | (None, _, _) =>
      load h fuel video video_in = load h fuel video PNone
  end.
Proof.
  unfold load.
  destruct (_extract_video_source video_in) as [[[p|] [f|]] [l|]];
    try reflexivity;
    destruct p; reflexivity.
Qed.

(** ** What touches the disk *)

Section EmitsOnly.

Variable P : event -> Prop.

Lemma emits_only_ret {A} (a : A) : emits_only P (ret a).
Proof. constructor. Qed.

Lemma emits_only_raise {A} (e : exn) : emits_only P (@raise A e).
Proof. constructor. Qed.

Lemma emits_only_lift {A} (c : call A) : emits_only P (lift c).
Proof. destruct c; constructor. Qed.

Lemma emits_only_emit (ev : event) : P ev -> emits_only P (emit ev).
Proof. intros H. constructor; [exact H|constructor]. Qed.

Lemma emits_only_import {A} (name : string) (m : option A) :
  emits_only P (import_module name m).
Proof. destruct m; constructor. Qed.

Lemma emits_only_bind {A B} (m : M A) (k : A -> M B) :
  emits_only P m -> (forall a, outcome m = Ok a -> emits_only P (k a)) ->
  emits_only P (bind m k).
Proof.
  unfold emits_only, trace. intros Hm Hk.
  destruct m as [t [a|e|]]; simpl in *; try exact Hm.
  specialize (Hk a eq_refl). destruct (k a) as [t' r]. simpl in *.
  apply Forall_app. split; assumption.
Qed.

Lemma emits_only_try {A} (catches : exn -> bool) (body : M A)
    (handler : exn -> M A) :
  emits_only P body -> (forall e, emits_only P (handler e)) ->
  emits_only P (try_except catches body handler).
Proof.
  unfold emits_only, trace. intros Hb Hh.
  destruct body as [t [a|e|]]; simpl in *; try exact Hb.
  destruct (catches e); [|exact Hb].
  specialize (Hh e). destruct (handler e) as [t' r]. simpl in *.
  apply Forall_app. split; assumption.
Qed.

End EmitsOnly.

Lemma emits_only_weaken {A} (P Q : event -> Prop) (m : M A) :
  (forall ev, P ev -> Q ev) -> emits_only P m -> emits_only Q m.
Proof.
  unfold emits_only. intros H Hm.
  apply Forall_forall. intros ev Hev. apply H.
  rewrite Forall_forall in Hm. apply Hm. exact Hev.
Qed.

(** Takes a computation apart along its binds, handlers and tests. *)
Ltac emits_step :=
  first
    [ apply emits_only_ret
    | apply emits_only_raise
    | apply emits_only_lift
    | apply emits_only_import
    | apply emits_only_emit; simpl; solve [trivial | eauto]
    | apply emits_only_bind; [|intros ? _]
    | apply emits_only_try; [|intros ?]
    | match goal with
      | |- emits_only _ (if ?b then _ else _) => destruct b
      | |- emits_only _ (match ?x with _ => _ end) => destruct x
      end ].

Lemma resolve_video_path_read_only (h : Host) (video : option string) :
  emits_only read_only (_resolve_video_path h video).
Proof.
  unfold _resolve_video_path, resolve_prefixed, resolve_in_input,
    prefixed_candidate, after_first_slash, os_path_isfile.
  repeat emits_step.
Qed.

Lemma scan_to_end_silent (P : event -> Prop) (cv : Cv2) (fuel : nat)
    (c : cap cv) (last_bgr : ndarray) :
  emits_only P (scan_to_end cv fuel c last_bgr).
Proof.
  unfold emits_only.
  rewrite (proj1 (scan_to_end_no_raise cv fuel c last_bgr)). constructor.
Qed.

Lemma read_first_last_frames_read_only (h : Host) (fuel : nat)
    (video_path : option string) :
  emits_only read_only (_read_first_last_frames h fuel video_path).
Proof.
  unfold _read_first_last_frames, read_with_cv2, read_with_imageio,
    os_path_isfile.
  repeat first [apply scan_to_end_silent | emits_step].
Qed.

(** X14.  Resolving a path and decoding a file only look: on every host
    and every input they make no directory and write no file, whether
    they return or raise. *)
Theorem resolver_and_decoder_read_only (h : Host) (fuel : nat)
    (video video_path : option string) :
  emits_only read_only (_resolve_video_path h video)
  /\ emits_only read_only (_read_first_last_frames h fuel video_path).
Proof.
  split.
  - apply resolve_video_path_read_only.
  - apply read_first_last_frames_read_only.
Qed.

Lemma to_comfy_image_silent (P : event -> Prop) (frame : option ndarray) :
  emits_only P (_to_comfy_image frame).
Proof. unfold _to_comfy_image. repeat emits_step. Qed.

Lemma save_preview_emits (h : Host) (frame_rgb : ndarray) :
  emits_only (read_or_preview h) (_save_temp_preview_png h frame_rgb).
Proof.
  unfold _save_temp_preview_png, os_makedirs.
  apply emits_only_try; [|intros e; apply emits_only_ret].
  unfold import_module.
  destruct (folder_paths h) as [fp|] eqn:E1; [|apply emits_only_raise].
  apply emits_only_bind; [apply emits_only_ret|]. intros fp' [= <-].
  destruct (pil h) as [pl|]; [|apply emits_only_raise].
  apply emits_only_bind; [apply emits_only_ret|]. intros pl' [= <-].
  destruct (get_temp_directory fp) as [d|e] eqn:E3;
    [|apply emits_only_raise].
  simpl.
  assert (Ht : temp_directory h = Some d)
    by (unfold temp_directory; rewrite E1, E3; reflexivity).
  unfold emits_only, trace.
  destruct (makedirs h d) as [[]|e]; simpl;
    [|constructor; [exact Ht|constructor]].
  destruct (fromarray pl frame_rgb) as [image|e]; simpl;
    [|constructor; [exact Ht|constructor]].
  destruct (image_save pl image _) as [[]|e]; simpl;
    (constructor; [exact Ht|]);
    (constructor; [exists d; split; [exact Ht|reflexivity]|constructor]).
Qed.

(** X15.  [load] never writes a file of its own.  On every host and for
    every input, the only changes it makes on disk are to make the host's
    temporary directory and to save the preview PNG inside it, under the
    name of this invocation; everything else it does is reading. *)
Theorem load_writes_only_the_preview (h : Host) (fuel : nat) (video : string)
    (video_in : payload) :
  emits_only (read_or_preview h) (load h fuel video video_in).
Proof.
  assert (W : forall ev, read_only ev -> read_or_preview h ev)
    by (intros [] H; simpl in *; solve [trivial | contradiction]).
  unfold load.
  destruct (_extract_video_source video_in) as [[p f] l].
  assert (Hrest : emits_only (read_or_preview h)
    (video_path <- _resolve_video_path h (Some (path_or p video)) ;;
     frames <- _read_first_last_frames h fuel (Some video_path) ;;
     let '(first_rgb, last_rgb) := frames in
     preview <- _save_temp_preview_png h first_rgb ;;
     match preview with
     | Some pv =>
         first <- _to_comfy_image (Some first_rgb) ;;
         last <- _to_comfy_image (Some last_rgb) ;;
         ret (WithPreview pv first last)
     | None =>
         first <- _to_comfy_image (Some first_rgb) ;;
         last <- _to_comfy_image (Some last_rgb) ;;
         ret (FramePair first last)
     end)).
  { apply emits_only_bind.
    - apply (emits_only_weaken read_only _ _ W).
      apply resolve_video_path_read_only.
    - intros video_path _. apply emits_only_bind.
      + apply (emits_only_weaken read_only _ _ W).
        apply read_first_last_frames_read_only.
      + intros [first_rgb last_rgb] _. apply emits_only_bind.
        * apply save_preview_emits.
        * intros [pv|] _;
            repeat first [apply to_comfy_image_silent | emits_step]. }
  destruct f as [f|]; [destruct l as [l|]|]; try exact Hrest.
  apply emits_only_ret.
Qed.

(** ** More on the recent-files handler *)

Lemma strongly_sorted_app {A} (R : A -> A -> Prop) (l1 l2 : list A) :
  StronglySorted R (l1 ++ l2)%list ->
  forall a b, In a l1 -> In b l2 -> R a b.
Proof.
  induction l1 as [|x l1 IH]; intros Hs a b Ha Hb; [contradiction|].
  simpl in Hs. inversion Hs as [|? ? Hrest Hall]; subst.
  destruct Ha as [<-|Ha].
  - rewrite Forall_forall in Hall. apply Hall.
    apply in_or_app. right. exact Hb.
  - exact (IH Hrest a b Ha Hb).
Qed.

(** X16.  The cap of 50 drops only the oldest entries.  The files
    answered are [kept], the rest of the listing is [dropped]: together
    they are the whole listing, [kept] has 50 entries or all of them when
    there are fewer, and no dropped entry is newer than a kept one. *)
Theorem recent_cap_keeps_newest (h : Host) (fp : FolderPaths)
    (entries : list (Q * string)) :
  listing h fp = Returns entries ->
  exists kept dropped,
    outcome (videoframenode_recent h fp)
    = Ok {| status := 200; body := JFiles (map snd kept) None |}
    /\ Permutation (kept ++ dropped)%list entries
    /\ length kept = Nat.min 50 (length entries)
    /\ (forall a b, In a kept -> In b dropped -> fst b <= fst a)
    /\ ((length entries <= 50)%nat -> dropped = []).
Proof.
  intros Hl.
  exists (firstn 50 (sort_newest_first entries)),
    (skipn 50 (sort_newest_first entries)).
  pose proof (sort_newest_first_perm entries) as Hp.
  split; [rewrite recent_files_outcome, Hl; reflexivity|].
  split; [rewrite firstn_skipn; exact Hp|].
  split; [rewrite length_firstn, (Permutation_length Hp); reflexivity|].
  split.
  - intros a b Ha Hb.
    apply (strongly_sorted_app newer_first
             (firstn 50 (sort_newest_first entries))
             (skipn 50 (sort_newest_first entries))); try assumption.
    rewrite firstn_skipn. apply sort_newest_first_sorted.
  - intros Hlen. apply skipn_all2.
    rewrite (Permutation_length Hp). exact Hlen.
Qed.

Lemma recent_cap_keeps_newest_witness :
  exists kept dropped,
    outcome (videoframenode_recent Sample.host Sample.comfy_paths)
    = Ok {| status := 200; body := JFiles (map snd kept) None |}
    /\ Permutation (kept ++ dropped)%list
         [(100, "input/one.mp4"); (200, "input/clip.mp4")]
    /\ dropped = [].
Proof.
  destruct (recent_cap_keeps_newest Sample.host Sample.comfy_paths
              [(100, "input/one.mp4"); (200, "input/clip.mp4")] eq_refl)
    as (kept & dropped & Ho & Hp & _ & _ & Hd).
  exists kept, dropped. split; [exact Ho|]. split; [exact Hp|].
  apply Hd. simpl. lia.
Defined.

Lemma insert_by_mtime_stable (q : Q) (x : Q * string)
    (l : list (Q * string)) :
  filter (same_mtime q) (insert_by_mtime x l)
  = filter (same_mtime q) (x :: l).
Proof.
  induction l as [|y r IH]; [reflexivity|].
  simpl insert_by_mtime.
  destruct (Qle_bool (fst y) (fst x)) eqn:E; [reflexivity|].
  change (filter (same_mtime q) (y :: insert_by_mtime x r))
    with (if same_mtime q y
          then y :: filter (same_mtime q) (insert_by_mtime x r)
          else filter (same_mtime q) (insert_by_mtime x r)).
  rewrite IH. simpl filter.
  destruct (same_mtime q y) eqn:Ey; [|reflexivity].
  destruct (same_mtime q x) eqn:Ex; [|reflexivity].
  exfalso. unfold same_mtime in Ex, Ey.
  apply Qeq_bool_iff in Ex, Ey.
  assert (Hle : fst y <= fst x) by (rewrite Ex, Ey; apply Qle_refl).
  apply Qle_bool_iff in Hle. congruence.
Qed.

Lemma sort_newest_first_stable (q : Q) (l : list (Q * string)) :
  filter (same_mtime q) (sort_newest_first l) = filter (same_mtime q) l.
Proof.
  induction l as [|x l IH]; [reflexivity|].
  simpl sort_newest_first. rewrite insert_by_mtime_stable.
  simpl. rewrite IH. reflexivity.
Qed.

(** X17.  The ranking is stable: entries that carry the same time stamp
    keep the order in which they were listed, the input directory before
    the output directory and each directory in the order of its
    listing.  This holds in particular for all the files whose time could
    not be read. *)
Theorem recent_ranking_is_stable (h : Host) (fp : FolderPaths)
    (entries : list (Q * string)) :
  listing h fp = Returns entries ->
  exists ranked,
    outcome (videoframenode_recent h fp)
    = Ok {| status := 200;
            body := JFiles (map snd (firstn 50 ranked)) None |}
    /\ forall q, filter (same_mtime q) ranked
                 = filter (same_mtime q) entries.
Proof.
  intros Hl. exists (sort_newest_first entries).
  split; [rewrite recent_files_outcome, Hl; reflexivity|].
  intros q. apply sort_newest_first_stable.
Qed.

Lemma scan_names_listing_events (h : Host) (prefix directory : string)
    (names : list string) :
  emits_only listing_event (scan_names h prefix directory names).
Proof.
  induction names as [|name names IH]; simpl; [apply emits_only_ret|].
  destruct (PyStr.endswith ".mp4" (PyStr.lower name)); simpl;
    [|exact IH].
  unfold os_path_getmtime.
  repeat first [exact IH | emits_step].
Qed.

Lemma scan_candidates_listing_events (h : Host)
    (candidates : list (string * string)) :
  emits_only listing_event (scan_candidates h candidates).
Proof.
  induction candidates as [|[prefix directory] candidates IH];
    cbn [scan_candidates]; [apply emits_only_ret|].
  unfold os_path_isdir, os_listdir.
  repeat first [exact IH | apply scan_names_listing_events | emits_step].
Qed.

(** X18.  Listing the recent files changes nothing on disk: on every
    host the handler only tests directories, lists them and reads time
    stamps, also when it ends with the error answer. *)
Theorem recent_files_only_lists (h : Host) (fp : FolderPaths) :
  emits_only listing_event (videoframenode_recent h fp).
Proof.
  unfold videoframenode_recent.
  repeat first [apply scan_candidates_listing_events | emits_step].
Qed.

(** ** More on the upload handler *)

Lemma lower_char_is_slash (c : ascii) :
  Ascii.eqb (PyStr.lower_char c) "/" = Ascii.eqb c "/".
Proof. destruct c as [[] [] [] [] [] [] [] []]; reflexivity. Qed.










(** X20.  Past its three checks the handler does not turn failures into
    answers.  When the input directory cannot be had or made, the upload
    cannot be read, or the file cannot be written, the exception of that
    step leaves the handler, and the steps after it are not taken. *)
Theorem upload_io_failure_propagates (h : Host) (fp : FolderPaths)
    (request : Request) (form : list (string * form_value)) (f : FileField)
    (name : string) (e : exn) :
  post request = Returns form ->
  form_get "file" form = Some (FormFile f) ->
  ff_filename f = Some name ->
  is_mp4 name = true ->
  (get_input_directory fp = Throws e ->
   videoframenode_upload h fp request = ([], Raise e))
  /\ (forall d,
        get_input_directory fp = Returns d ->
        makedirs h d = Throws e ->
        videoframenode_upload h fp request = ([EvMakeDirs d], Raise e))
  /\ (forall d,
        get_input_directory fp = Returns d ->
        makedirs h d = Returns tt ->
        ff_read f = Throws e ->
        videoframenode_upload h fp request = ([EvMakeDirs d], Raise e))
  /\ (forall d data,
        get_input_directory fp = Returns d ->
        makedirs h d = Returns tt ->
        ff_read f = Returns data ->
        write_file h (OsPath.join d (OsPath.basename name)) data = Throws e ->
        videoframenode_upload h fp request
        = ([EvMakeDirs d;
            EvWriteFile (OsPath.join d (OsPath.basename name)) data],
           Raise e)).
Proof.
  intros Hpost Hfile Hname Hext.
  unfold videoframenode_upload. rewrite Hpost, Hfile.
  unfold filename_of. rewrite Hname. fold (is_mp4 name). rewrite Hext.
  simpl negb. cbv iota.
  unfold os_makedirs, open_write, read_upload.
  split; [intros ->; reflexivity|].
  split; [intros d -> Hmk; simpl; rewrite Hmk; reflexivity|].
  split.
  - intros d -> Hmk Hread. simpl. rewrite Hmk. simpl. rewrite Hread.
    reflexivity.
  - intros d data -> Hmk Hread Hwrite. simpl. rewrite Hmk. simpl.
    rewrite Hread. simpl. rewrite Hwrite. reflexivity.
Qed.

Lemma upload_io_failure_propagates_witness :
  videoframenode_upload FailingDisk.host Sample.comfy_paths
    (sample_upload "clip.mp4")
  = ([EvMakeDirs "/comfy/input";
      EvWriteFile "/comfy/input/clip.mp4" [Byte.x00; Byte.x01]],
     Raise (OSError "Read-only file system")).
Proof.
  apply (proj2 (proj2 (proj2
           (upload_io_failure_propagates FailingDisk.host Sample.comfy_paths
              (sample_upload "clip.mp4") _ _ "clip.mp4"
              (OSError "Read-only file system")
              eq_refl eq_refl eq_refl eq_refl)))
           "/comfy/input" [Byte.x00; Byte.x01]
           eq_refl eq_refl eq_refl eq_refl).
Defined.

(** ** More on [_to_comfy_image] *)

Lemma all_bytes_read_back :
  forallb (fun x => Z.eqb (to_byte (to_unit_float x)) x) byte_values = true.
Proof. vm_compute. reflexivity. Qed.

Lemma to_byte_to_unit_float (x : Z) :
  is_byte x -> to_byte (to_unit_float x) = x.
Proof.
  intros H. pose proof all_bytes_read_back as A.
  rewrite forallb_forall in A. apply Z.eqb_eq. apply A.
  apply is_byte_in_values. exact H.
Qed.

Lemma map_to_unit_float_injective (l1 l2 : list Z) :
  Forall is_byte l1 -> Forall is_byte l2 ->
  map to_unit_float l1 = map to_unit_float l2 -> l1 = l2.
Proof.
  intros H1. revert l2. induction H1 as [|x l1 Hx Hl1 IH]; intros l2 H2 E.
  - destruct l2; [reflexivity|discriminate].
  - destruct H2 as [|y l2 Hy Hl2]; [discriminate|].
    simpl in E. injection E as Exy El. f_equal.
    + rewrite <- (to_byte_to_unit_float x Hx),
        <- (to_byte_to_unit_float y Hy), Exy. reflexivity.
    + apply IH; assumption.
Qed.

(** X21.  The conversion of an 8-bit frame loses nothing.  Multiplying an
    item of the tensor by 255 and rounding gives back the byte it came
    from, black is exactly 0 and white exactly 1, and two 8-bit frames
    that convert to the same tensor are the same frame. *)
Theorem to_comfy_image_lossless :
  (forall x, is_byte x -> to_byte (to_unit_float x) = x)
  /\ to_unit_float 0 = 0
  /\ to_unit_float 255 = 1
  /\ (forall a b t,
        Forall is_byte (items a) -> Forall is_byte (items b) ->
        outcome (_to_comfy_image (Some a)) = Ok t ->
        outcome (_to_comfy_image (Some b)) = Ok t ->
        a = b).
Proof.
  split; [exact to_byte_to_unit_float|].
  split; [vm_compute; reflexivity|].
  split; [vm_compute; reflexivity|].
  intros a b t Ha Hb. unfold _to_comfy_image.
  destruct (negb (ndim a =? 3)%nat || negb (nth 2 (shape a) 0 =? 3)%nat)%bool;
    [discriminate|].
  destruct (negb (ndim b =? 3)%nat || negb (nth 2 (shape b) 0 =? 3)%nat)%bool;
    [discriminate|].
  unfold unsqueeze0. simpl. intros [= <-] [= Hs Hi].
  destruct a as [sa ia], b as [sb ib]. simpl in *. f_equal.
  - symmetry. exact Hs.
  - symmetry. apply map_to_unit_float_injective; assumption.
Qed.

Lemma to_comfy_image_lossless_witness :
  to_byte (to_unit_float 128) = 128%Z.
Proof.
  apply (proj1 to_comfy_image_lossless). unfold is_byte. lia.
Defined.

(** ** More on [_resolve_video_path] *)

Lemma resolve_in_input_last_rule (h : Host) (v : string) :
  outcome (r <- resolve_in_input h v ;;
           match r with
           | Some p => ret p
           | None => ret v
           end) = Ok (last_rule h v).
Proof.
  unfold resolve_in_input, last_rule, input_or_literal.
  destruct (folder_paths h) as [fp|]; simpl; [|reflexivity].
  destruct (get_input_directory fp) as [d|e]; simpl; [|reflexivity].
  destruct (isfile h (OsPath.join d v)); reflexivity.
Qed.

(** X22.  Outside ComfyUI, where [folder_paths] cannot be imported, the
    resolver returns its argument stripped and looks at nothing.  On any
    host an absolute path comes back unchanged: no storage prefix applies
    to it, and joining it to the input directory gives the path itself. *)
Theorem resolve_without_host_or_absolute (h : Host) (video : option string) :
  (folder_paths h = None ->
   _resolve_video_path h video = ([], Ok (stripped video)))
  /\ (PyStr.startswith "/" (stripped video) = true ->
      outcome (_resolve_video_path h video) = Ok (stripped video)).
Proof.
  unfold _resolve_video_path, stripped.
  assert (E : (match video with
               | Some s => if PyStr.truthy s then s else ""
               | None => ""
               end) = match video with Some s => s | None => "" end).
  { destruct video as [[|c s]|]; reflexivity. }
  rewrite E; clear E.
  set (v := PyStr.strip _). split.
  - intros Hfp. destruct (PyStr.truthy v); simpl; [|reflexivity].
    unfold resolve_prefixed, resolve_in_input. rewrite Hfp. reflexivity.
  - intros Habs. destruct v as [|c r] eqn:Ev; [discriminate|].
    cbn [PyStr.startswith] in Habs.
    apply andb_true_iff in Habs. destruct Habs as [Hc _].
    apply Ascii.eqb_eq in Hc. subst c.
    simpl PyStr.truthy. simpl negb. cbv iota.
    assert (H0 : forall get,
      outcome (prefixed_candidate h
                 (PyStr.lower (PyStr.replace "\" "/" (String "/" r)))
                 (String "/" r) "input/" get) = Ok None
      /\ outcome (prefixed_candidate h
                    (PyStr.lower (PyStr.replace "\" "/" (String "/" r)))
                    (String "/" r) "output/" get) = Ok None
      /\ outcome (prefixed_candidate h
                    (PyStr.lower (PyStr.replace "\" "/" (String "/" r)))
                    (String "/" r) "temp/" get) = Ok None)
      by (intros get; repeat split).
    assert (Hp : outcome (resolve_prefixed h
                   (PyStr.lower (PyStr.replace "\" "/" (String "/" r)))
                   (String "/" r)) = Ok None).
    { unfold resolve_prefixed.
      destruct (folder_paths h) as [fp|]; [|reflexivity].
      apply outcome_try_ok.
      rewrite (outcome_bind_ok (import_module "folder_paths" (Some fp))
                 _ fp eq_refl).
      rewrite (outcome_bind_ok _ _ _ (proj1 (H0 _))).
      rewrite (outcome_bind_ok _ _ _ (proj1 (proj2 (H0 _)))).
      exact (proj2 (proj2 (H0 _))). }
    rewrite (outcome_bind_ok _ _ _ Hp).
    rewrite resolve_in_input_last_rule.
    unfold last_rule, input_or_literal.
    assert (Hj : forall d, OsPath.join d (String "/" r) = String "/" r)
      by reflexivity.
    destruct (folder_paths h) as [fp|]; [|reflexivity].
    destruct (get_input_directory fp) as [d|e]; [|reflexivity].
    rewrite Hj. destruct (isfile h (String "/" r)); reflexivity.
Qed.

Lemma resolve_without_host_or_absolute_witness :
  outcome (_resolve_video_path Sample.host (Some " /videos/a.mp4 "))
  = Ok "/videos/a.mp4".
Proof.
  apply (proj2 (resolve_without_host_or_absolute Sample.host
                  (Some " /videos/a.mp4 "))).
  reflexivity.
Defined.

Lemma lower_app (a b : string) :
  PyStr.lower (a ++ b) = PyStr.lower a ++ PyStr.lower b.
Proof. induction a as [|c a IH]; simpl; [|rewrite IH]; reflexivity. Qed.

Lemma replace_app (x y : ascii) (a b : string) :
  PyStr.replace x y (a ++ b) = PyStr.replace x y a ++ PyStr.replace x y b.
Proof. induction a as [|c a IH]; simpl; [|rewrite IH]; reflexivity. Qed.

Lemma lower_char_is_backslash (c : ascii) :
  Ascii.eqb (PyStr.lower_char c) "\" = Ascii.eqb c "\".
Proof. destruct c as [[] [] [] [] [] [] [] []]; reflexivity. Qed.

Lemma contains_lower (p : string) :
  PyStr.contains "/" (PyStr.lower p) = PyStr.contains "/" p
  /\ PyStr.contains "\" (PyStr.lower p) = PyStr.contains "\" p.
Proof.
  induction p as [|c p [IH1 IH2]]; [split; reflexivity|].
  cbn [PyStr.lower PyStr.contains].
  rewrite lower_char_is_slash, lower_char_is_backslash, IH1, IH2.
  split; reflexivity.
Qed.

Lemma replace_no_backslash (p : string) :
  PyStr.contains "\" p = false -> PyStr.replace "\" "/" p = p.
Proof.
  induction p as [|c p IH]; [reflexivity|].
  cbn [PyStr.contains PyStr.replace]. intros H.
  apply orb_false_iff in H. destruct H as [Hc Hp].
  rewrite Hc, (IH Hp). reflexivity.
Qed.

Lemma split1_app (p rest : string) :
  PyStr.contains "/" p = false ->
  PyStr.split1 "/" (p ++ String "/" rest) = (p, Some rest).
Proof.
  induction p as [|c p IH]; [reflexivity|].
  cbn [PyStr.contains]. intros H.
  apply orb_false_iff in H. destruct H as [Hc Hp].
  change (String c p ++ String "/" rest)
    with (String c (p ++ String "/" rest)).
  cbn [PyStr.split1]. rewrite Hc, (IH Hp). reflexivity.
Qed.

Lemma prefixed_candidate_hit (h : Host) (lowered v prefix rest d : string)
    (get_directory : call string) :
  PyStr.startswith prefix lowered = true ->
  get_directory = Returns d ->
  after_first_slash v = ret rest ->
  outcome (prefixed_candidate h lowered v prefix get_directory)
  = Ok (if isfile h (OsPath.join d rest) then Some (OsPath.join d rest)
        else None).
Proof.
  intros Hp -> Hs. unfold prefixed_candidate, os_path_isfile.
  rewrite Hp, Hs. simpl.
  destruct (isfile h (OsPath.join d rest)); reflexivity.
Qed.

Lemma prefixed_candidate_miss (h : Host) (lowered v prefix : string)
    (get_directory : call string) :
  PyStr.startswith prefix lowered = false ->
  outcome (prefixed_candidate h lowered v prefix get_directory) = Ok None.
Proof. intros Hp. unfold prefixed_candidate. rewrite Hp. reflexivity. Qed.

(** The first [try] block when exactly one storage prefix applies. *)
Lemma resolve_prefixed_hit (h : Host) (fp : FolderPaths)
    (lowered v rest d : string) :
  folder_paths h = Some fp ->
  after_first_slash v = ret rest ->
  (PyStr.startswith "input/" lowered = true
   /\ get_input_directory fp = Returns d
   \/ PyStr.startswith "input/" lowered = false
      /\ PyStr.startswith "output/" lowered = true
      /\ get_output_directory fp = Returns d
   \/ PyStr.startswith "input/" lowered = false
      /\ PyStr.startswith "output/" lowered = false
      /\ PyStr.startswith "temp/" lowered = true
      /\ get_temp_directory fp = Returns d) ->
  (PyStr.startswith "input/" lowered = true ->
   PyStr.startswith "output/" lowered = false
   /\ PyStr.startswith "temp/" lowered = false) ->
  (PyStr.startswith "output/" lowered = true ->
   PyStr.startswith "temp/" lowered = false) ->
  outcome (resolve_prefixed h lowered v)
  = Ok (if isfile h (OsPath.join d rest) then Some (OsPath.join d rest)
        else None).
Proof.
  intros Hfp Hs Hcase Hin Hout. unfold resolve_prefixed. rewrite Hfp.
  apply outcome_try_ok.
  rewrite (outcome_bind_ok (import_module "folder_paths" (Some fp))
             _ fp eq_refl).
  destruct Hcase as [[H1 Hd]|[(H1 & H2 & Hd)|(H1 & H2 & H3 & Hd)]].
  - destruct (Hin H1) as [H2 H3].
    rewrite (outcome_bind_ok _ _ _
               (prefixed_candidate_hit h lowered v "input/" rest d _
                  H1 Hd Hs)).
    destruct (isfile h (OsPath.join d rest)); [reflexivity|].
    rewrite (outcome_bind_ok _ _ _
               (prefixed_candidate_miss h lowered v "output/" _ H2)).
    apply prefixed_candidate_miss. exact H3.
  - rewrite (outcome_bind_ok _ _ _
               (prefixed_candidate_miss h lowered v "input/" _ H1)).
    rewrite (outcome_bind_ok _ _ _
               (prefixed_candidate_hit h lowered v "output/" rest d _
                  H2 Hd Hs)).
    destruct (isfile h (OsPath.join d rest)); [reflexivity|].
    apply prefixed_candidate_miss. exact (Hout H2).
  - rewrite (outcome_bind_ok _ _ _
               (prefixed_candidate_miss h lowered v "input/" _ H1)).
    rewrite (outcome_bind_ok _ _ _
               (prefixed_candidate_miss h lowered v "output/" _ H2)).
    rewrite (prefixed_candidate_hit h lowered v "temp/" rest d _ H3 Hd Hs).
    reflexivity.
Qed.

(** X23.  The three storage prefixes work alike and are recognised
    whatever their case: a stripped argument [p/rest] with [p] reading
    [input], [output] or [temp] once lowered resolves to [rest] joined to
    the input, output or temporary directory when a file is there.
    Otherwise, without an error, the whole argument goes to the last
    rule, which looks for it in the input directory. *)
Theorem storage_prefix_rules (h : Host) (fp : FolderPaths)
    (video p rest d : string) :
  folder_paths h = Some fp ->
  PyStr.strip video = p ++ "/" ++ rest ->
  (PyStr.lower p = "input" /\ get_input_directory fp = Returns d
   \/ PyStr.lower p = "output" /\ get_output_directory fp = Returns d
   \/ PyStr.lower p = "temp" /\ get_temp_directory fp = Returns d) ->
  outcome (_resolve_video_path h (Some video))
  = Ok (if isfile h (OsPath.join d rest) then OsPath.join d rest
        else last_rule h (PyStr.strip video)).
Proof.
  intros Hfp Hv Hcase.
  assert (Hclean : PyStr.contains "/" p = false
                   /\ PyStr.contains "\" p = false).
  { destruct (contains_lower p) as [E1 E2]. rewrite <- E1, <- E2.
    destruct Hcase as [[-> _]|[[-> _]|[-> _]]]; split; reflexivity. }
  destruct Hclean as [Hslash Hback].
  assert (Hlow : PyStr.lower (PyStr.replace "\" "/" (PyStr.strip video))
                 = PyStr.lower p ++ "/"
                   ++ PyStr.lower (PyStr.replace "\" "/" rest)).
  { rewrite Hv, replace_app, lower_app, (replace_no_backslash p Hback).
    reflexivity. }
  assert (Hs : after_first_slash (PyStr.strip video) = ret rest).
  { unfold after_first_slash. rewrite Hv.
    change (p ++ "/" ++ rest) with (p ++ String "/" rest).
    rewrite (split1_app p rest Hslash). reflexivity. }
  assert (Ht : PyStr.truthy (PyStr.strip video) = true).
  { rewrite Hv. destruct p; reflexivity. }
  assert (E : (if PyStr.truthy video then video else "") = video)
    by (destruct video; reflexivity).
  unfold _resolve_video_path. rewrite E, Ht. simpl negb. cbv iota.
  set (v := PyStr.strip video) in *.
  set (lowered := PyStr.lower (PyStr.replace "\" "/" v)) in *.
  assert (Hp : outcome (resolve_prefixed h lowered v)
               = Ok (if isfile h (OsPath.join d rest)
                     then Some (OsPath.join d rest) else None)).
  { apply (resolve_prefixed_hit h fp lowered v rest d Hfp Hs).
    - destruct Hcase as [[Hl Hd]|[[Hl Hd]|[Hl Hd]]];
        rewrite Hlow, Hl; [left|right; left|right; right];
        repeat split; assumption.
    - intros Hi. destruct Hcase as [[Hl _]|[[Hl _]|[Hl _]]];
        rewrite Hlow, Hl in *;
        first [split; reflexivity | simpl in Hi; discriminate Hi].
    - intros Ho. destruct Hcase as [[Hl _]|[[Hl _]|[Hl _]]];
        rewrite Hlow, Hl in *;
        first [reflexivity | simpl in Ho; discriminate Ho]. }
  rewrite (outcome_bind_ok _ _ _ Hp).
  destruct (isfile h (OsPath.join d rest)); [reflexivity|].
  apply resolve_in_input_last_rule.
Qed.

Lemma storage_prefix_rules_witness :
  outcome (_resolve_video_path Sample.host (Some "INPUT/one.mp4"))
  = Ok "/comfy/input/one.mp4"
  /\ outcome (_resolve_video_path Sample.host (Some "Output/one.mp4"))
     = Ok "Output/one.mp4".
Proof.
  split.
  - apply (storage_prefix_rules Sample.host Sample.comfy_paths
             "INPUT/one.mp4" "INPUT" "one.mp4" "/comfy/input"
             eq_refl eq_refl).
    left. split; reflexivity.
  - apply (storage_prefix_rules Sample.host Sample.comfy_paths
             "Output/one.mp4" "Output" "one.mp4" "/comfy/output"
             eq_refl eq_refl).
    right. left. split; reflexivity.
Defined.

(** ** How [load] fails *)

Lemma load_without_frames (h : Host) (fuel : nat) (video : string)
    (video_in : payload) (p : option string) (f l : option tensor) :
  _extract_video_source video_in = (p, f, l) ->
  f = None \/ l = None ->
  load h fuel video video_in
  = (video_path <- _resolve_video_path h (Some (path_or p video)) ;;
     frames <- _read_first_last_frames h fuel (Some video_path) ;;
     let '(first_rgb, last_rgb) := frames in
     preview <- _save_temp_preview_png h first_rgb ;;
     match preview with
     | Some pv =>
         first <- _to_comfy_image (Some first_rgb) ;;
         last <- _to_comfy_image (Some last_rgb) ;;
         ret (WithPreview pv first last)
     | None =>
         first <- _to_comfy_image (Some first_rgb) ;;
         last <- _to_comfy_image (Some last_rgb) ;;
         ret (FramePair first last)
     end).
Proof.
  intros Hsrc Hnone. unfold load. rewrite Hsrc.
  destruct Hnone as [-> | ->]; [reflexivity|].
  destruct f; reflexivity.
Qed.

Lemma in_trace_bind {A B} (m : M A) (k : A -> M B) (a : A) (ev : event) :
  outcome m = Ok a -> In ev (trace (k a)) -> In ev (trace (bind m k)).
Proof.
  destruct m as [t r]. simpl. intros -> H. simpl.
  destruct (k a) as [t' r']. simpl in *. apply in_or_app. right. exact H.
Qed.

(** X24.  With nothing usable connected and a blank path, or with a
    blank path handed over by the payload, [load] raises [ValueError]
    and has looked at nothing.  A blank string payload is not ignored:
    it overrides a valid primary argument and makes the node fail. *)
Theorem load_blank_path_is_value_error (h : Host) (fuel : nat)
    (video : string) (video_in : payload) (p : option string)
    (f l : option tensor) :
  _extract_video_source video_in = (p, f, l) ->
  f = None \/ l = None ->
  PyStr.strip (path_or p video) = "" ->
  load h fuel video video_in
  = ([], Raise (ValueError "video_path is required")).
Proof.
  intros Hsrc Hnone Hblank.
  rewrite (load_without_frames h fuel video video_in p f l Hsrc Hnone).
  unfold _resolve_video_path.
  assert (E : (if PyStr.truthy (path_or p video) then path_or p video
               else "") = path_or p video)
    by (destruct (path_or p video); reflexivity).
  rewrite E, Hblank. reflexivity.
Qed.

Lemma load_blank_path_is_value_error_witness :
  load Sample.host 3 "clip.mp4" (PStr "   ")
  = ([], Raise (ValueError "video_path is required")).
Proof.
  apply (load_blank_path_is_value_error Sample.host 3 "clip.mp4"
           (PStr "   ") (Some "   ") None None eq_refl (or_introl eq_refl)
           eq_refl).
Defined.

(** X25.  A decoding that fails leaves nothing behind: when the decoder
    raises, for a missing file or for any other reason, [load] raises the
    same exception, and up to then it has only looked; no directory was
    made and no preview saved. *)
Theorem failed_decode_writes_nothing (h : Host) (fuel : nat) (video : string)
    (video_in : payload) (p : option string) (f l : option tensor)
    (video_path : string) (e : exn) :
  _extract_video_source video_in = (p, f, l) ->
  f = None \/ l = None ->
  outcome (_resolve_video_path h (Some (path_or p video))) = Ok video_path ->
  outcome (_read_first_last_frames h fuel (Some video_path)) = Raise e ->
  outcome (load h fuel video video_in) = Raise e
  /\ emits_only read_only (load h fuel video video_in).
Proof.
  intros Hsrc Hnone Hpath Hread.
  rewrite (load_without_frames h fuel video video_in p f l Hsrc Hnone).
  split.
  - rewrite (outcome_bind_ok _ _ _ Hpath).
    apply outcome_bind_raise. exact Hread.
  - apply emits_only_bind; [apply resolve_video_path_read_only|].
    intros path Hpath'. rewrite Hpath in Hpath'. injection Hpath' as <-.
    apply emits_only_bind; [apply read_first_last_frames_read_only|].
    intros frames Hframes. rewrite Hread in Hframes. discriminate.
Qed.

Lemma failed_decode_writes_nothing_witness :
  outcome (load Sample.host 3 "gone.mp4" PNone)
  = Raise (FileNotFoundError "Video file not found: gone.mp4")
  /\ emits_only read_only (load Sample.host 3 "gone.mp4" PNone).
Proof.
  apply (failed_decode_writes_nothing Sample.host 3 "gone.mp4" PNone
           None None None "gone.mp4"
           (FileNotFoundError "Video file not found: gone.mp4")
           eq_refl (or_introl eq_refl) eq_refl eq_refl).
Defined.

(** X26.  The preview is saved before the frames are converted.  When
    the frames decode and the preview is persisted but the first frame is
    not of shape H x W x 3, [load] raises the converter's exception, and
    the preview file has been written all the same. *)
Theorem preview_outlives_failed_conversion (h : Host) (fuel : nat)
    (video : string) (video_in : payload) (p : option string)
    (f l : option tensor) (video_path : string)
    (first_rgb last_rgb : ndarray) (temp_dir : string) (e : exn) :
  _extract_video_source video_in = (p, f, l) ->
  f = None \/ l = None ->
  outcome (_resolve_video_path h (Some (path_or p video))) = Ok video_path ->
  outcome (_read_first_last_frames h fuel (Some video_path))
  = Ok (first_rgb, last_rgb) ->
  preview_steps_succeed h first_rgb ->
  temp_directory h = Some temp_dir ->
  outcome (_to_comfy_image (Some first_rgb)) = Raise e ->
  outcome (load h fuel video video_in) = Raise e
  /\ In (EvSavePng (OsPath.join temp_dir (preview_filename h)) first_rgb)
        (trace (load h fuel video video_in)).
Proof.
  intros Hsrc Hnone Hpath Hread Hsteps Htemp Hconv.
  rewrite (load_without_frames h fuel video video_in p f l Hsrc Hnone).
  assert (Hsave : _save_temp_preview_png h first_rgb
            = ([EvMakeDirs temp_dir;
                EvSavePng (OsPath.join temp_dir (preview_filename h))
                  first_rgb],
               Ok (Some (preview_descriptor h)))).
  { unfold _save_temp_preview_png, os_makedirs.
    destruct Hsteps as (fp & pl & d & image & H1 & H2 & H3 & H4 & H5 & H6).
    unfold temp_directory in Htemp. rewrite H1, H3 in Htemp.
    injection Htemp as <-.
    rewrite H1. simpl. rewrite H2. simpl. rewrite H3. simpl. rewrite H4.
    simpl. rewrite H5. simpl.
    destruct (image_save pl image _) as [[]|e'] eqn:E6; [reflexivity|].
    discriminate H6. }
  split.
  - rewrite (outcome_bind_ok _ _ _ Hpath), (outcome_bind_ok _ _ _ Hread).
    cbv beta iota. rewrite Hsave.
    rewrite (outcome_bind_ok (_, Ok (Some (preview_descriptor h))) _ _
               eq_refl).
    apply outcome_bind_raise. exact Hconv.
  - apply (in_trace_bind _ _ _ _ Hpath).
    apply (in_trace_bind _ _ _ _ Hread).
    cbv beta iota. rewrite Hsave.
    destruct (_to_comfy_image (Some first_rgb)) as [t r].
    simpl in Hconv. subst r. simpl. right. left. reflexivity.
Qed.

Lemma preview_outlives_failed_conversion_witness :
  outcome (load Gray.host 0 "clip.mp4" PNone)
  = Raise (ValueError "Expected RGB HxWx3 frame, got shape=(1, 2)")
  /\ In (EvSavePng
           "/comfy/temp/videoframe_preview_0123456789abcdef0123456789abcdef.png"
           (mk_ndarray [1; 2]%nat [7; 9]%Z))
        (trace (load Gray.host 0 "clip.mp4" PNone)).
Proof.
  apply (preview_outlives_failed_conversion Gray.host 0 "clip.mp4" PNone
           None None None "/comfy/input/clip.mp4"
           (mk_ndarray [1; 2]%nat [7; 9]%Z) (mk_ndarray [1; 2]%nat [7; 9]%Z)
           "/comfy/temp"
           (ValueError "Expected RGB HxWx3 frame, got shape=(1, 2)")
           eq_refl (or_introl eq_refl) eq_refl eq_refl).
  - exists Sample.comfy_paths, Sample.pillow, "/comfy/temp",
      (mk_ndarray [1; 2]%nat [7; 9]%Z).
    repeat split.
  - reflexivity.
  - reflexivity.
Defined.

(** ** Edge cases of the recent-files handler *)

Lemma recent_ranking_is_stable_witness :
  exists ranked,
    outcome (videoframenode_recent Sample.host Sample.comfy_paths)
    = Ok {| status := 200;
            body := JFiles (map snd (firstn 50 ranked)) None |}
    /\ filter (same_mtime 100) ranked = [(100, "input/one.mp4")].
Proof.
  destruct (recent_ranking_is_stable Sample.host Sample.comfy_paths
              [(100, "input/one.mp4"); (200, "input/clip.mp4")] eq_refl)
    as (ranked & Ho & Hs).
  exists ranked. split; [exact Ho|]. exact (Hs 100).
Defined.

(** X27.  When neither the input nor the output directory exists, the
    handler answers an empty list without an error, after testing the
    two directories and nothing else. *)
Theorem recent_without_directories (h : Host) (fp : FolderPaths)
    (input_dir output_dir : string) :
  get_input_directory fp = Returns input_dir ->
  get_output_directory fp = Returns output_dir ->
  isdir h input_dir = false ->
  isdir h output_dir = false ->
  videoframenode_recent h fp
  = ([EvIsDir input_dir; EvIsDir output_dir],
     Ok {| status := 200; body := JFiles [] None |}).
Proof.
  intros Hi Ho Hdi Hdo.
  unfold videoframenode_recent. rewrite Hi, Ho.
  cbn [lift bind ret scan_candidates].
  unfold os_path_isdir. rewrite Hdi, Hdo. reflexivity.
Qed.

Lemma recent_without_directories_witness :
  videoframenode_recent Sample.host
    {| get_input_directory := Returns "/nowhere/input";
       get_output_directory := Returns "/nowhere/output";
       get_temp_directory := Returns "/nowhere/temp" |}
  = ([EvIsDir "/nowhere/input"; EvIsDir "/nowhere/output"],
     Ok {| status := 200; body := JFiles [] None |}).
Proof.
  apply (recent_without_directories Sample.host
           {| get_input_directory := Returns "/nowhere/input";
              get_output_directory := Returns "/nowhere/output";
              get_temp_directory := Returns "/nowhere/temp" |}
           "/nowhere/input" "/nowhere/output"
           eq_refl eq_refl eq_refl eq_refl).
Defined.
